(** * The marketing-asset generator page: registry, job controller, downloads

    A shallow embedding of the three React components of the repository
    ([GeneratorPage], [OutputConfigPanel] and [PreviewGrid]).

    - React state is a record; a state setter is a record update.
    - A JavaScript array is a [list]; [map], [filter], [includes] and
      [forEach] are the list functions of the same name.
    - A JavaScript string is a [string]; [===] on strings is [String.eqb].
    - An integer-valued JavaScript number is a [Z] (exact while its magnitude
      stays below 2^53), [NaN] is [None].
    - Effects on the outside world (notifications, console, HTTP requests,
      file saves) are appended to a log.
    - [setInterval], [setTimeout] and pending promises are explicit fields of
      the controller state; the event loop is a step function over timed
      events. *)

From Stdlib Require Import ZArith List String Ascii Bool Lia DecimalString Sorted.
From Stdlib Require Import DecimalZ DecimalPos.
Import ListNotations.

#[local] Open Scope string_scope.
#[local] Open Scope Z_scope.

(** ** JavaScript primitives used by the components *)

(** [`${n}`] for an integer-valued number. *)
Definition number_to_string (n : Z) : string :=
  NilZero.string_of_int (Z.to_int n).

(** [s || fallback] where [s] is a string or [undefined]: the empty string
    and [undefined] are both falsy. *)
Definition or_else (s : option string) (fallback : string) : string :=
  match s with
  | Some EmptyString | None => fallback
  | Some v => v
  end.

(** [arr.includes(x)] on an array of strings. *)
Definition includes (arr : list string) (x : string) : bool :=
  existsb (fun y => String.eqb y x) arr.

(** White space skipped by [parseInt] (the ASCII part of it). *)
Definition is_white_space (c : ascii) : bool :=
  match nat_of_ascii c with
  | 9%nat | 10%nat | 11%nat | 12%nat | 13%nat | 32%nat => true
  | _ => false
  end.

Fixpoint trim_start (s : string) : string :=
  match s with
  | String c rest => if is_white_space c then trim_start rest else s
  | EmptyString => s
  end.

Definition digit_value (c : ascii) : option Z :=
  let n := Z.of_nat (nat_of_ascii c) in
  if (48 <=? n) && (n <=? 57) then Some (n - 48)
  else if (97 <=? n) && (n <=? 122) then Some (n - 87)
  else if (65 <=? n) && (n <=? 90) then Some (n - 55)
  else None.

(** The value of the longest prefix of [s] made of digits below [radix];
    [acc] is [None] until a first digit has been read. *)
Fixpoint parse_digits (radix : Z) (s : string) (acc : option Z) : option Z :=
  match s with
  | String c rest =>
      match digit_value c with
      | Some d =>
          if d <? radix
          then parse_digits radix rest
                 (Some (radix * (match acc with Some a => a | None => 0 end) + d))
          else acc
      | None => acc
      end
  | EmptyString => acc
  end.

(** [parseInt(s)] without a radix argument: leading white space, a sign, an
    optional [0x] prefix, then as many digits as there are; [None] is [NaN]. *)
Definition parseInt (s : string) : option Z :=
  let s1 := trim_start s in
  let '(sign, s2) :=
    match s1 with
    | String "-" rest => (-1, rest)
    | String "+" rest => (1, rest)
    | _ => (1, s1)
    end in
  let '(radix, s3) :=
    match s2 with
    | String "0" (String "x" rest) => (16, rest)
    | String "0" (String "X" rest) => (16, rest)
    | _ => (10, s2)
    end in
  option_map (Z.mul sign) (parse_digits radix s3 None).

(** [n || 0] on a number: [NaN] and zero are falsy. *)
Definition or_zero (n : option Z) : Z :=
  match n with
  | Some v => v
  | None => 0
  end.

(** ** Data model *)

(** One entry of the [outputs] state of [GeneratorPage]. *)
Module Output.
Record t : Type := mk {
  id : string;
  type : string;
  enabled : bool;
  language : string;
  width : Z;
  height : Z;
  formats : list string;
  generatePrint : bool
}.
End Output.

(** One element of [assetsResponse.data.assets]. *)
Module Asset.
Record t : Type := mk {
  id : string;
  output_type : string;
  language : string;
  width : Z;
  height : Z;
  format : string;
  data : string;
  alt_text : option string;
  contrast_score : option Z
}.
End Asset.

Record GlobalSettings : Type := {
  auto_alt_text : bool;
  contrast_check : bool;
  brand_guidelines : bool
}.

(** ** OutputConfigPanel: the registry of outputs *)

Record OutputType : Type := {
  ot_id : string;
  label : string;
  defaultWidth : Z;
  defaultHeight : Z
}.

Definition OUTPUT_TYPES : list OutputType :=
  [ {| ot_id := "poster"; label := "Poster"; defaultWidth := 1080; defaultHeight := 1350 |};
    {| ot_id := "banner"; label := "Banner"; defaultWidth := 1920; defaultHeight := 600 |};
    {| ot_id := "ad"; label := "Advertisement"; defaultWidth := 1200; defaultHeight := 628 |};
    {| ot_id := "social_post"; label := "Social Post"; defaultWidth := 1080; defaultHeight := 1080 |};
    {| ot_id := "brochure"; label := "Brochure"; defaultWidth := 816; defaultHeight := 1056 |} ].

Definition FORMATS : list string := ["png"; "jpeg"; "pdf"; "svg"].

(** The initial value of the [outputs] state. *)
Definition initial_outputs : list Output.t :=
  [ {| Output.id := "poster"; Output.type := "poster"; Output.enabled := true;
       Output.language := "English"; Output.width := 1080; Output.height := 1350;
       Output.formats := ["png"; "jpeg"; "pdf"]; Output.generatePrint := true |} ].

(** [addOutput(type)]; [now] is the reading of [Date.now()].  When [type] is
    not one of [OUTPUT_TYPES], [find] gives [undefined] and reading
    [outputType.defaultWidth] throws before [setOutputs] is called: [None]. *)
Definition addOutput (now : Z) (type : string) (outputs : list Output.t)
  : option (list Output.t) :=
  match find (fun t => String.eqb (ot_id t) type) OUTPUT_TYPES with
  | Some outputType =>
      let newOutput :=
        {| Output.id := type ++ "_" ++ number_to_string now;
           Output.type := type;
           Output.enabled := true;
           Output.language := "English";
           Output.width := defaultWidth outputType;
           Output.height := defaultHeight outputType;
           Output.formats := ["png"; "jpeg"; "pdf"];
           Output.generatePrint := String.eqb type "poster" |} in
      Some (outputs ++ [newOutput])%list
  | None => None
  end.

(** The pairs [(field, value)] that the panel passes to [updateOutput]. *)
Inductive Assignment : Type :=
| Enabled (checked : bool)
| Language (value : string)
| Width (value : Z)
| Height (value : Z)
| GeneratePrint (checked : bool).

(** [{ ...output, [field]: value }] *)
Definition assign (a : Assignment) (output : Output.t) : Output.t :=
  match a with
  | Enabled v =>
      Output.mk (Output.id output) (Output.type output) v (Output.language output)
        (Output.width output) (Output.height output) (Output.formats output)
        (Output.generatePrint output)
  | Language v =>
      Output.mk (Output.id output) (Output.type output) (Output.enabled output) v
        (Output.width output) (Output.height output) (Output.formats output)
        (Output.generatePrint output)
  | Width v =>
      Output.mk (Output.id output) (Output.type output) (Output.enabled output)
        (Output.language output) v (Output.height output) (Output.formats output)
        (Output.generatePrint output)
  | Height v =>
      Output.mk (Output.id output) (Output.type output) (Output.enabled output)
        (Output.language output) (Output.width output) v (Output.formats output)
        (Output.generatePrint output)
  | GeneratePrint v =>
      Output.mk (Output.id output) (Output.type output) (Output.enabled output)
        (Output.language output) (Output.width output) (Output.height output)
        (Output.formats output) v
  end.

Definition updateOutput (id : string) (a : Assignment) (outputs : list Output.t)
  : list Output.t :=
  map (fun output => if String.eqb (Output.id output) id then assign a output else output)
      outputs.

(** [{ ...output, formats }] *)
Definition with_formats (formats : list string) (output : Output.t) : Output.t :=
  Output.mk (Output.id output) (Output.type output) (Output.enabled output)
    (Output.language output) (Output.width output) (Output.height output) formats
    (Output.generatePrint output).

(** The new [formats] array computed inside [toggleFormat]. *)
Definition toggled (formats : list string) (format : string) : list string :=
  if includes formats format
  then filter (fun f => negb (String.eqb f format)) formats
  else (formats ++ [format])%list.

Definition toggleFormat (outputId format : string) (outputs : list Output.t)
  : list Output.t :=
  map (fun output =>
         if String.eqb (Output.id output) outputId
         then with_formats (toggled (Output.formats output) format) output
         else output)
      outputs.

Definition removeOutput (id : string) (outputs : list Output.t) : list Output.t :=
  filter (fun output => negb (String.eqb (Output.id output) id)) outputs.

Definition enabledCount (outputs : list Output.t) : nat :=
  List.length (filter Output.enabled outputs).

(** *** What the rendered panel lets the user do

    Each constructor is one event handler of the panel's JSX, with the data
    the browser hands to it. *)
Inductive PanelEvent : Type :=
| SelectAddOutput (type : string) (now : Z)         (* Select onValueChange={addOutput} *)
| CheckEnabled (id : string) (checked : bool)       (* Checkbox onCheckedChange *)
| SelectLanguage (id : string) (value : string)     (* Select onValueChange *)
| TypeWidth (id : string) (text : string)           (* Input onChange, e.target.value *)
| TypeHeight (id : string) (text : string)          (* Input onChange, e.target.value *)
| CheckFormat (id : string) (format : string)       (* Checkbox onCheckedChange *)
| SwitchPrint (id : string) (checked : bool)        (* Switch onCheckedChange *)
| ClickRemove (id : string).                        (* Button onClick, rendered when outputs.length > 1 *)

(** The Remove button is rendered only under [outputs.length > 1]. *)
Definition remove_button_rendered (outputs : list Output.t) : bool :=
  (1 <? List.length outputs)%nat.

Definition panel_step (outputs : list Output.t) (e : PanelEvent) : list Output.t :=
  match e with
  | SelectAddOutput type now =>
      match addOutput now type outputs with
      | Some outputs' => outputs'
      | None => outputs
      end
  | CheckEnabled id checked => updateOutput id (Enabled checked) outputs
  | SelectLanguage id value => updateOutput id (Language value) outputs
  | TypeWidth id text => updateOutput id (Width (or_zero (parseInt text))) outputs
  | TypeHeight id text => updateOutput id (Height (or_zero (parseInt text))) outputs
  | CheckFormat id format => toggleFormat id format outputs
  | SwitchPrint id checked => updateOutput id (GeneratePrint checked) outputs
  | ClickRemove id =>
      if remove_button_rendered outputs then removeOutput id outputs else outputs
  end.

Definition panel_run (outputs : list Output.t) (events : list PanelEvent)
  : list Output.t :=
  fold_left panel_step events outputs.

(** ** Effects observable outside the components *)

(** The body of [POST /api/generate]. *)
Module Wire.
Record t : Type := mk {
  type : string;
  language : string;
  width : Z;
  height : Z;
  formats : list string;
  generate_print : bool
}.
End Wire.

Module Request.
Record t : Type := mk {
  job_id : string;
  outputs : list Wire.t;
  settings : GlobalSettings
}.
End Request.

(** The anchor element built to save one file. *)
Record Link : Type := {
  href : string;
  download : string
}.

Inductive Effect : Type :=
| toast_error (message : string)
| toast_success (message : string)
| console_error (label : string)
| axios_post_generate (request : Request.t)    (* POST ${API}/generate *)
| axios_get_jobs (jobId : string)              (* GET ${API}/jobs/${jobId} *)
| axios_get_assets (jobId : string)            (* GET ${API}/assets/${jobId} *)
| appendChild (link : Link)
| click (link : Link)
| removeChild (link : Link).

Definition is_network_call (e : Effect) : bool :=
  match e with
  | axios_post_generate _ | axios_get_jobs _ | axios_get_assets _ => true
  | _ => false
  end.

Definition is_status_query (e : Effect) : bool :=
  match e with
  | axios_get_jobs _ => true
  | _ => false
  end.

Definition is_toast (e : Effect) : bool :=
  match e with
  | toast_error _ | toast_success _ => true
  | _ => false
  end.

(** ** PreviewGrid and GeneratorPage: saving assets *)

(** [downloadAsset(asset)] of [PreviewGrid]. *)
Definition downloadAsset (asset : Asset.t) : list Effect :=
  let filename :=
    "asset_" ++ Asset.output_type asset ++ "_" ++ Asset.language asset ++ "_"
    ++ number_to_string (Asset.width asset) ++ "x"
    ++ number_to_string (Asset.height asset) ++ "." ++ Asset.format asset in
  let link :=
    {| href := "data:image/" ++ Asset.format asset ++ ";base64," ++ Asset.data asset;
       download := filename |} in
  [appendChild link; click link; removeChild link].

(** A callback registered with [setTimeout(callback, delay)]; the callback
    is recorded by the effects it has when it runs. *)
Record Timer : Type := {
  delay : Z;
  callback : list Effect
}.

(** [arr.forEach((x, index) => ...)], collecting what each call produces. *)
Fixpoint forEach {A B : Type} (f : A -> Z -> B) (arr : list A) (index : Z) : list B :=
  match arr with
  | [] => []
  | x :: rest => f x index :: forEach f rest (index + 1)
  end.

(** [handleDownloadAll()] of [GeneratorPage]: the timers it registers, in
    registration order, and what it does synchronously. *)
Definition handleDownloadAll (generatedAssets : list Asset.t)
  : list Timer * list Effect :=
  (forEach
     (fun asset index =>
        let filename :=
          "asset_" ++ Asset.output_type asset ++ "_" ++ Asset.language asset ++ "_"
          ++ number_to_string (Asset.width asset) ++ "x"
          ++ number_to_string (Asset.height asset) ++ "." ++ Asset.format asset in
        let link :=
          {| href := "data:image/" ++ Asset.format asset ++ ";base64," ++ Asset.data asset;
             download := filename |} in
        {| delay := index * 100;
           callback := [appendChild link; click link; removeChild link] |})
     generatedAssets 0,
   [toast_success "Downloading all assets..."]).

(** The event loop runs pending timers by increasing delay, and timers of
    equal delay in the order they were registered: a stable insertion. *)
Fixpoint enqueue (t : Timer) (queue : list Timer) : list Timer :=
  match queue with
  | [] => [t]
  | u :: rest => if delay t <? delay u then t :: u :: rest else u :: enqueue t rest
  end.

Definition timer_queue (timers : list Timer) : list Timer :=
  fold_left (fun queue t => enqueue t queue) timers [].

(** The instants (relative to the call) and effects of the timers when the
    event loop has run them all. *)
Definition run_timers (timers : list Timer) : list (Z * list Effect) :=
  map (fun t => (delay t, callback t)) (timer_queue timers).

(** ** GeneratorPage: the generation job controller *)

(** The React state of [GeneratorPage] that [handleGenerate] reads or writes. *)
Module Page.
Record t : Type := mk {
  jobId : option string;
  isGenerating : bool;
  generatedAssets : list Asset.t;
  outputs : list Output.t;
  globalSettings : GlobalSettings
}.
End Page.

(** The state of the first render. *)
Definition initial_page : Page.t :=
  {| Page.jobId := None;
     Page.isGenerating := false;
     Page.generatedAssets := [];
     Page.outputs := initial_outputs;
     Page.globalSettings :=
       {| auto_alt_text := true; contrast_check := true; brand_guidelines := false |} |}.

Definition setIsGenerating (b : bool) (p : Page.t) : Page.t :=
  Page.mk (Page.jobId p) b (Page.generatedAssets p) (Page.outputs p) (Page.globalSettings p).

Definition setGeneratedAssets (assets : list Asset.t) (p : Page.t) : Page.t :=
  Page.mk (Page.jobId p) (Page.isGenerating p) assets (Page.outputs p) (Page.globalSettings p).

(** [!jobId]: [null] and the empty string are falsy. *)
Definition no_jobId (jobId : option string) : bool :=
  match jobId with
  | Some EmptyString | None => true
  | Some _ => false
  end.

(** The [disabled] attribute of the Generate button. *)
Definition generate_button_disabled (p : Page.t) : bool :=
  no_jobId (Page.jobId p) || (enabledCount (Page.outputs p) =? 0)%nat || Page.isGenerating p.

(** One call of [handleGenerate] together with the page it acts on.  The
    interval, the timeout and the pending promises are those created by this
    call; another call creates its own. *)
Record Controller : Type := mkController {
  page : Page.t;                 (* the live React state *)
  captured_jobId : string;       (* [jobId] as the handler's closure holds it *)
  captured_isGenerating : bool;  (* [isGenerating] as the handler's closure holds it *)
  posting : bool;                (* [await axios.post(generate)] is pending *)
  pollInterval : option Z;       (* the instant the interval next fires; [None]: not set, or cleared *)
  timeoutTimer : option Z;       (* the instant the timeout fires; [None]: not set, or fired *)
  polls_in_flight : nat;         (* pending [await axios.get(jobs)] *)
  fetches_in_flight : nat;       (* pending [await axios.get(assets)] *)
  clock : Z;
  log : list Effect              (* oldest first *)
}.

Definition to_wire (o : Output.t) : Wire.t :=
  {| Wire.type := Output.type o;
     Wire.language := Output.language o;
     Wire.width := Output.width o;
     Wire.height := Output.height o;
     Wire.formats := Output.formats o;
     Wire.generate_print := Output.generatePrint o || false |}.

(** A call that returns before [setIsGenerating(true)]. *)
Definition returned_early (now : Z) (p : Page.t) (message : string) : Controller :=
  {| page := p; captured_jobId := or_else (Page.jobId p) "";
     captured_isGenerating := Page.isGenerating p;
     posting := false; pollInterval := None; timeoutTimer := None;
     polls_in_flight := 0; fetches_in_flight := 0;
     clock := now; log := [toast_error message] |}.

(** [handleGenerate()] up to its first [await], called at instant [now] from
    the render whose state is [p]. *)
Definition handleGenerate (now : Z) (p : Page.t) : Controller :=
  if no_jobId (Page.jobId p) then
    returned_early now p "Please upload an image first"
  else
    (* past the first test [jobId] is a non-empty string *)
    let jobId := or_else (Page.jobId p) "" in
    let enabledOutputs := filter Output.enabled (Page.outputs p) in
    if (List.length enabledOutputs =? 0)%nat then
      returned_early now p "Please enable at least one output type"
    else
      let request :=
        {| Request.job_id := jobId;
           Request.outputs := map to_wire enabledOutputs;
           Request.settings := Page.globalSettings p |} in
      {| page := setGeneratedAssets [] (setIsGenerating true p);
         captured_jobId := jobId;
         captured_isGenerating := Page.isGenerating p;
         posting := true; pollInterval := None; timeoutTimer := None;
         polls_in_flight := 0; fetches_in_flight := 0;
         clock := now; log := [axios_post_generate request] |}.

(** How a promise settles: with the response data or with an error, of which
    only [error.response?.data?.detail] is read. *)
Inductive Settled (A : Type) : Type :=
| resolved (data : A)
| rejected (detail : option string).
Arguments resolved {A} data.
Arguments rejected {A} detail.

(** [jobResponse.data] *)
Record JobData : Type := {
  status : string;
  error : option string
}.

Inductive Event : Type :=
| generate_settled (r : Settled unit)            (* [await axios.post(generate)] *)
| interval_fires                                 (* the [setInterval] callback starts *)
| jobs_settled (r : Settled JobData)             (* [await axios.get(jobs)] *)
| assets_settled (r : Settled (list Asset.t))    (* [await axios.get(assets)] *)
| timeout_fires.                                 (* the [setTimeout] callback runs *)

(** Record updates on the controller. *)
Definition with_page (f : Page.t -> Page.t) (c : Controller) : Controller :=
  mkController (f (page c)) (captured_jobId c) (captured_isGenerating c) (posting c)
    (pollInterval c) (timeoutTimer c) (polls_in_flight c) (fetches_in_flight c)
    (clock c) (log c).

Definition emit (es : list Effect) (c : Controller) : Controller :=
  mkController (page c) (captured_jobId c) (captured_isGenerating c) (posting c)
    (pollInterval c) (timeoutTimer c) (polls_in_flight c) (fetches_in_flight c)
    (clock c) (log c ++ es).

Definition clearInterval (c : Controller) : Controller :=
  mkController (page c) (captured_jobId c) (captured_isGenerating c) (posting c)
    None (timeoutTimer c) (polls_in_flight c) (fetches_in_flight c)
    (clock c) (log c).

Definition with_timers (interval timeout : option Z) (c : Controller) : Controller :=
  mkController (page c) (captured_jobId c) (captured_isGenerating c) (posting c)
    interval timeout (polls_in_flight c) (fetches_in_flight c)
    (clock c) (log c).

Definition with_pending (post : bool) (polls fetches : nat) (c : Controller) : Controller :=
  mkController (page c) (captured_jobId c) (captured_isGenerating c) post
    (pollInterval c) (timeoutTimer c) polls fetches
    (clock c) (log c).

Definition at_instant (t : Z) (c : Controller) : Controller :=
  mkController (page c) (captured_jobId c) (captured_isGenerating c) (posting c)
    (pollInterval c) (timeoutTimer c) (polls_in_flight c) (fetches_in_flight c)
    t (log c).

(** *** The continuations of [handleGenerate]

    Each function is the code that runs when the named event happens; the
    effects are logged in the order the statements execute. *)

(** After [await axios.post(`${API}/generate`, request)], at instant [t]. *)
Definition on_generate_settled (t : Z) (r : Settled unit) (c : Controller) : Controller :=
  match r with
  | resolved _ =>
      with_timers (Some (t + 3000)) (Some (t + 300000))
        (emit [toast_success "Generation started! This may take a moment..."]
           (with_pending false (polls_in_flight c) (fetches_in_flight c) c))
  | rejected detail =>
      emit [console_error "Generation error:";
            toast_error (or_else detail "Failed to generate assets")]
        (with_page (setIsGenerating false)
           (with_pending false (polls_in_flight c) (fetches_in_flight c) c))
  end.

(** The interval callback up to its [await axios.get(`${API}/jobs/${jobId}`)];
    the interval is due again 3000 ms later. *)
Definition on_interval (t : Z) (c : Controller) : Controller :=
  with_timers (Some (t + 3000)) (timeoutTimer c)
    (emit [axios_get_jobs (captured_jobId c)]
       (with_pending (posting c) (S (polls_in_flight c)) (fetches_in_flight c) c)).

(** The interval callback after its first [await]; [c] already has one poll
    less in flight. *)
Definition on_jobs_settled (r : Settled JobData) (c : Controller) : Controller :=
  match r with
  | resolved jobResponse =>
      if String.eqb (status jobResponse) "completed" then
        emit [axios_get_assets (captured_jobId c)]
          (with_pending (posting c) (polls_in_flight c) (S (fetches_in_flight c))
             (clearInterval c))
      else if String.eqb (status jobResponse) "failed" then
        emit [toast_error (or_else (error jobResponse) "Generation failed")]
          (with_page (setIsGenerating false) (clearInterval c))
      else c
  | rejected _ =>
      emit [console_error "Polling error:"]
        (with_page (setIsGenerating false) (clearInterval c))
  end.

(** The interval callback after [await axios.get(`${API}/assets/${jobId}`)];
    [c] already has one fetch less in flight. *)
Definition on_assets_settled (r : Settled (list Asset.t)) (c : Controller) : Controller :=
  match r with
  | resolved assets =>
      emit [toast_success
              ("Generated " ++ number_to_string (Z.of_nat (List.length assets))
               ++ " assets successfully!")]
        (with_page (setIsGenerating false)
           (with_page (setGeneratedAssets assets) c))
  | rejected _ =>
      emit [console_error "Polling error:"]
        (with_page (setIsGenerating false) (clearInterval c))
  end.

(** The [setTimeout] callback: it tests the [isGenerating] of its closure. *)
Definition on_timeout (c : Controller) : Controller :=
  let c1 := with_timers None None c in
  if captured_isGenerating c then
    emit [toast_error "Generation timed out. Please try again."]
      (with_page (setIsGenerating false) c1)
  else c1.

(** *** The event loop

    An event at instant [t] can happen when time does not run backwards and
    no pending timer is overdue; a timer fires at the instant it is due, a
    promise settles only if it is pending. *)
Definition not_overdue (t : Z) (timer : option Z) : bool :=
  match timer with
  | Some due => t <=? due
  | None => true
  end.

Definition step (c : Controller) (te : Z * Event) : option Controller :=
  let '(t, e) := te in
  if (clock c <=? t) && not_overdue t (pollInterval c) && not_overdue t (timeoutTimer c)
  then
    let c := at_instant t c in
    match e with
    | generate_settled r =>
        if posting c then Some (on_generate_settled t r c) else None
    | interval_fires =>
        match pollInterval c with
        | Some due => if t =? due then Some (on_interval t c) else None
        | None => None
        end
    | jobs_settled r =>
        match polls_in_flight c with
        | S n => Some (on_jobs_settled r (with_pending (posting c) n (fetches_in_flight c) c))
        | O => None
        end
    | assets_settled r =>
        match fetches_in_flight c with
        | S n => Some (on_assets_settled r (with_pending (posting c) (polls_in_flight c) n c))
        | O => None
        end
    | timeout_fires =>
        match timeoutTimer c with
        | Some due => if t =? due then Some (on_timeout c) else None
        | None => None
        end
    end
  else None.

Fixpoint run (c : Controller) (events : list (Z * Event)) : option Controller :=
  match events with
  | [] => Some c
  | te :: rest =>
      match step c te with
      | Some c' => run c' rest
      | None => None
      end
  end.

(** The terminal states of the job life cycle, and the state that the
    handling of an event records: the branches that end the run with
    [setIsGenerating(false)]. *)
Inductive Terminal : Type := Completed | Failed | TimedOut.

Definition classification (c : Controller) (e : Event) : option Terminal :=
  match e with
  | generate_settled (rejected _) => Some Failed
  | generate_settled (resolved _) => None
  | interval_fires => None
  | jobs_settled (resolved jobResponse) =>
      if String.eqb (status jobResponse) "completed" then None
      else if String.eqb (status jobResponse) "failed" then Some Failed
      else None
  | jobs_settled (rejected _) => Some Failed
  | assets_settled (resolved _) => Some Completed
  | assets_settled (rejected _) => Some Failed
  | timeout_fires => if captured_isGenerating c then Some TimedOut else None
  end.

(** The notifications shown to the user, and the status queries sent. *)
Definition toasts (l : list Effect) : list Effect := filter is_toast l.
Definition status_queries (l : list Effect) : list Effect := filter is_status_query l.

(** ** Properties stated on the model *)

(** The fields of an output, to say which of them an operation leaves alone. *)
Inductive Field : Type :=
| f_id | f_type | f_enabled | f_language | f_width | f_height | f_formats | f_generatePrint.

Definition field_of (a : Assignment) : Field :=
  match a with
  | Enabled _ => f_enabled
  | Language _ => f_language
  | Width _ => f_width
  | Height _ => f_height
  | GeneratePrint _ => f_generatePrint
  end.

Definition same_field (f : Field) (o o' : Output.t) : Prop :=
  match f with
  | f_id => Output.id o' = Output.id o
  | f_type => Output.type o' = Output.type o
  | f_enabled => Output.enabled o' = Output.enabled o
  | f_language => Output.language o' = Output.language o
  | f_width => Output.width o' = Output.width o
  | f_height => Output.height o' = Output.height o
  | f_formats => Output.formats o' = Output.formats o
  | f_generatePrint => Output.generatePrint o' = Output.generatePrint o
  end.

(** [o'] is [o] except perhaps for field [f]. *)
Definition same_except (f : Field) (o o' : Output.t) : Prop :=
  forall g, g <> f -> same_field g o o'.

Definition dims_positive (o : Output.t) : Prop :=
  0 < Output.width o /\ 0 < Output.height o.

(** The width and height typed in an event are read as positive integers. *)
Definition types_positive (e : PanelEvent) : Prop :=
  match e with
  | TypeWidth _ text | TypeHeight _ text => 0 < or_zero (parseInt text)
  | _ => True
  end.

(** The statement of C5 over every list of entries, also those in which two
    entries share an id, which the data model (ids are unique) excludes. *)
Definition remove_never_empties : Prop :=
  forall (outputs : list Output.t) (id : string),
    outputs <> [] -> panel_step outputs (ClickRemove id) <> [].

(** C6 as the specification words it: whatever the user does in the panel,
    every entry has positive width and height. *)
Definition sizes_always_positive : Prop :=
  forall events : list PanelEvent,
    Forall dims_positive (panel_run initial_outputs events).

(** C7 as the specification words it: a submission that is sent carries no
    output with an empty formats array. *)
Definition submitted_formats_never_empty : Prop :=
  forall (now : Z) (p : Page.t) (request : Request.t) (w : Wire.t),
    In (axios_post_generate request) (log (handleGenerate now p)) ->
    In w (Request.outputs request) ->
    Wire.formats w <> [].

(** C2 as the specification words it: in a run of the controller, after an
    event whose handling records a terminal state, no poll response is
    handled and the interval callback does not start again. *)
Definition nothing_after_terminal : Prop :=
  forall (now : Z) (p : Page.t) (before : list (Z * Event)) (te : Z * Event)
         (after : list (Z * Event)) (c1 c2 c3 : Controller),
    run (handleGenerate now p) before = Some c1 ->
    step c1 te = Some c2 ->
    classification c1 (snd te) <> None ->
    run c2 after = Some c3 ->
    forall te', In te' after ->
      match snd te' with
      | jobs_settled _ | interval_fires => False
      | _ => True
      end.

(** The file name of the specification's pattern
    [asset_{type}_{language}_{width}x{height}.{format}]. *)
Definition pattern_filename
  (type language : string) (width height : Z) (format : string) : string :=
  String.concat ""
    ["asset_"; type; "_"; language; "_"; number_to_string width; "x";
     number_to_string height; "."; format].

(** The reasons for which a generate request is refused, as the
    specification names them, and the notification each one is reported by. *)
Inductive Rejection : Type := NoUpload | NoOutputsSelected.

Definition rejection_message (r : Rejection) : string :=
  match r with
  | NoUpload => "Please upload an image first"
  | NoOutputsSelected => "Please enable at least one output type"
  end.

(** The controller has started nothing: no request is pending and no timer
    is set. *)
Definition nothing_pending (c : Controller) : Prop :=
  posting c = false /\ pollInterval c = None /\ timeoutTimer c = None
  /\ polls_in_flight c = 0%nat /\ fetches_in_flight c = 0%nat.

(** Timers compared by delay. *)
Definition delay_le (t u : Timer) : Prop := delay t <= delay u.

(** *** Invariants of a run *)

(** While the submission is pending nothing else is; while the assets are
    being fetched the interval is already cleared. *)
Definition coherent (c : Controller) : Prop :=
  (posting c = true ->
   pollInterval c = None /\ timeoutTimer c = None
   /\ polls_in_flight c = 0%nat /\ fetches_in_flight c = 0%nat)
  /\ ((0 < fetches_in_flight c)%nat -> pollInterval c = None).

(** The submission has settled and the interval is not running. *)
Definition interval_stopped (c : Controller) : Prop :=
  posting c = false /\ pollInterval c = None.

(** Case analysis on a step that happens. *)
Ltac step_cases H :=
  match type of H with
  | step ?c (?t, ?e) = Some _ =>
      unfold step in H;
      destruct ((clock c <=? t) && not_overdue t (pollInterval c)
                && not_overdue t (timeoutTimer c)); [|discriminate H];
      destruct e as [r| |r|r| ]; cbn in H
  end.

(** The initial poster and a banner added to it. *)
Definition poster_and_banner : list Output.t :=
  panel_run initial_outputs [SelectAddOutput "banner" 1700000000000].

(** *** Scenarios *)

(** A page with an uploaded image, job id [J1], and the default poster. *)
Definition uploaded_page : Page.t :=
  {| Page.jobId := Some "J1";
     Page.isGenerating := false;
     Page.generatedAssets := [];
     Page.outputs := initial_outputs;
     Page.globalSettings := Page.globalSettings initial_page |}.

Definition pending : JobData := {| status := "pending"; error := None |}.

(** [n] rounds of polling from instant [t]: the interval fires, and the
    remote answers [pending] 200 ms later. *)
Fixpoint pending_rounds (n : nat) (t : Z) : list (Z * Event) :=
  match n with
  | O => []
  | S k =>
      (t, interval_fires) :: (t + 200, jobs_settled (resolved pending))
      :: pending_rounds k (t + 3000)
  end.

(** The submission is accepted at instant 0, every poll until the timeout
    answers [pending], and the timeout callback runs at 300000. *)
Definition stuck_job : list (Z * Event) :=
  ((0, generate_settled (resolved tt)) :: pending_rounds 99 3000
   ++ [(300000, timeout_fires)])%list.

(** The remote takes more than 3000 ms to answer the first poll, so a second
    one is sent before; both answer [failed]. *)
Definition overlapping_polls : list (Z * Event) :=
  [ (0, generate_settled (resolved tt));
    (3000, interval_fires);
    (6000, interval_fires);
    (6100, jobs_settled (resolved {| status := "failed"; error := None |}));
    (6200, jobs_settled (resolved {| status := "failed"; error := None |})) ].

(** The first poll fails in transport. *)
Definition broken_poll : list (Z * Event) :=
  [ (0, generate_settled (resolved tt));
    (3000, interval_fires);
    (3100, jobs_settled (rejected None)) ].

(** ** More of the panel and of the page *)

(** The label the panel shows for an output: [OUTPUT_TYPES.find(...)] then
    [outputType.label]; [None] when [find] gives [undefined] and the render
    throws. *)
Definition output_label (output : Output.t) : option string :=
  option_map label
    (find (fun t => String.eqb (ot_id t) (Output.type output)) OUTPUT_TYPES).

(** The ids of the known output types. *)
Definition known_types : list string := map ot_id OUTPUT_TYPES.

(** The type and the reading of [Date.now()] of each add in a sequence of
    panel events. *)
Fixpoint add_readings (events : list PanelEvent) : list (string * Z) :=
  match events with
  | [] => []
  | SelectAddOutput type now :: rest => (type, now) :: add_readings rest
  | _ :: rest => add_readings rest
  end.

(** The format checkboxes are rendered from [FORMATS]: a check event names
    one of them. *)
Definition checks_known_format (e : PanelEvent) : Prop :=
  match e with
  | CheckFormat _ format => In format FORMATS
  | _ => True
  end.

(** Every id is the one of the initial poster or was built by an add whose
    type and clock reading are in [used]. *)
Definition ids_from (used : list (string * Z)) (outputs : list Output.t) : Prop :=
  NoDup (map Output.id outputs)
  /\ Forall
       (fun o =>
          Output.id o = "poster"
          \/ exists type now,
               In (type, now) used /\ In type known_types
               /\ Output.id o = type ++ "_" ++ number_to_string now)
       outputs.

(** A [formats] array without repetition whose members are among [FORMATS]. *)
Definition formats_well_formed (o : Output.t) : Prop :=
  NoDup (Output.formats o) /\ incl (Output.formats o) FORMATS.

(** *** Counting in a run of the controller *)

Definition is_generate_post (e : Effect) : bool :=
  match e with
  | axios_post_generate _ => true
  | _ => false
  end.

Definition is_assets_fetch (e : Effect) : bool :=
  match e with
  | axios_get_assets _ => true
  | _ => false
  end.

(** The job id that a network call names. *)
Definition names_job (j : string) (e : Effect) : Prop :=
  match e with
  | axios_post_generate request => Request.job_id request = j
  | axios_get_jobs i | axios_get_assets i => i = j
  | _ => True
  end.

(** A poll response with status [completed]. *)
Definition answers_completed (te : Z * Event) : bool :=
  match snd te with
  | jobs_settled (resolved jobResponse) => String.eqb (status jobResponse) "completed"
  | _ => false
  end.



(** The interval and the timeout are set together, 3000 ms and 300000 ms
    after the submission is accepted; every start of the interval callback
    sends one status query and moves the interval 3000 ms further. *)
Definition on_schedule (c : Controller) : Prop :=
  (List.length (status_queries (log c)) <= 100)%nat
  /\ (posting c = true -> status_queries (log c) = [] /\ pollInterval c = None)
  /\ (forall due, pollInterval c = Some due ->
        exists T, timeoutTimer c = Some T
          /\ due = T - 300000
                  + 3000 * (Z.of_nat (List.length (status_queries (log c))) + 1)).

(** *** One more scenario *)

Definition poster_asset : Asset.t :=
  Asset.mk "a1" "poster" "English" 1080 1350 "png" "iVBORw0KGgo=" None None.

(** The first poll answers [pending], the second [completed], and the fetch
    returns one asset. *)
Definition completed_job : list (Z * Event) :=
  [ (0, generate_settled (resolved tt));
    (3000, interval_fires);
    (3200, jobs_settled (resolved pending));
    (6000, interval_fires);
    (6200, jobs_settled (resolved {| status := "completed"; error := None |}));
    (6500, assets_settled (resolved [poster_asset])) ].

(** ** GeneratorPage: the upload session *)

(** What the page reads of a [File]. *)
Module File.
Record t : Type := mk {
  name : string;
  type : string;
  size : Z
}.
End File.

(** The React state that [handleFileSelect] and the drag handlers read or
    write; [jobId] is the state that [handleGenerate] reads. *)
Module Uploader.
Record t : Type := mk {
  uploadedImage : option File.t;
  previewUrl : option string;
  jobId : option string;
  isUploading : bool;
  isDragging : bool
}.
End Uploader.

Definition setIsUploading (b : bool) (s : Uploader.t) : Uploader.t :=
  Uploader.mk (Uploader.uploadedImage s) (Uploader.previewUrl s) (Uploader.jobId s) b
    (Uploader.isDragging s).

Definition setPreviewUrl (url : option string) (s : Uploader.t) : Uploader.t :=
  Uploader.mk (Uploader.uploadedImage s) url (Uploader.jobId s) (Uploader.isUploading s)
    (Uploader.isDragging s).

Definition setJobId (jobId : option string) (s : Uploader.t) : Uploader.t :=
  Uploader.mk (Uploader.uploadedImage s) (Uploader.previewUrl s) jobId
    (Uploader.isUploading s) (Uploader.isDragging s).

Definition setUploadedImage (file : option File.t) (s : Uploader.t) : Uploader.t :=
  Uploader.mk file (Uploader.previewUrl s) (Uploader.jobId s) (Uploader.isUploading s)
    (Uploader.isDragging s).

Definition setIsDragging (b : bool) (s : Uploader.t) : Uploader.t :=
  Uploader.mk (Uploader.uploadedImage s) (Uploader.previewUrl s) (Uploader.jobId s)
    (Uploader.isUploading s) b.

Inductive UploadEffect : Type :=
| shown (e : Effect)                    (* a notification or a console line *)
| readAsDataURL (file : File.t)         (* reader.readAsDataURL(file) *)
| axios_post_upload (file : File.t).    (* POST ${API}/upload, multipart *)

(** One call of [handleFileSelect] together with the state it acts on. *)
Record UploadCall : Type := mkUploadCall {
  uploader : Uploader.t;          (* the live React state *)
  selected : option File.t;       (* [file] as the pending callbacks hold it *)
  reading : bool;                 (* [reader.onload] has not run yet *)
  uploading : bool;               (* [await axios.post(upload)] is pending *)
  upload_log : list UploadEffect  (* oldest first *)
}.

(** [handleFileSelect(file)] up to its [await]; [None] is a missing file
    ([files[0]] of an empty list). *)
Definition handleFileSelect (file : option File.t) (s : Uploader.t) : UploadCall :=
  match file with
  | None =>
      {| uploader := s; selected := None; reading := false; uploading := false;
         upload_log := [] |}
  | Some f =>
      if negb (String.prefix "image/" (File.type f)) then
        {| uploader := s; selected := None; reading := false; uploading := false;
           upload_log :=
             [shown (toast_error "Please upload an image file (JPG, PNG, WEBP)")] |}
      else
        {| uploader := setIsUploading true s; selected := Some f;
           reading := true; uploading := true;
           upload_log := [readAsDataURL f; axios_post_upload f] |}
  end.

Inductive UploadEvent : Type :=
| reader_loaded (result : string)                 (* [reader.onload], [e.target.result] *)
| upload_settled (r : Settled (option string)).   (* the [await]; [response.data.job_id] *)

Definition upload_step (u : UploadCall) (e : UploadEvent) : option UploadCall :=
  match e with
  | reader_loaded result =>
      if reading u then
        Some (mkUploadCall (setPreviewUrl (Some result) (uploader u)) (selected u)
                false (uploading u) (upload_log u))
      else None
  | upload_settled r =>
      if uploading u then
        match r with
        | resolved job_id =>
            Some (mkUploadCall
                    (setIsUploading false
                       (setUploadedImage (selected u) (setJobId job_id (uploader u))))
                    (selected u) (reading u) false
                    (upload_log u ++ [shown (toast_success "Image uploaded successfully")]))
        | rejected detail =>
            Some (mkUploadCall (setIsUploading false (uploader u))
                    (selected u) (reading u) false
                    (upload_log u
                     ++ [shown (console_error "Upload error:");
                         shown (toast_error (or_else detail "Failed to upload image"))]))
        end
      else None
  end.

Fixpoint upload_run (u : UploadCall) (events : list UploadEvent) : option UploadCall :=
  match events with
  | [] => Some u
  | e :: rest =>
      match upload_step u e with
      | Some u' => upload_run u' rest
      | None => None
      end
  end.

(** [handleDragOver], [handleDragLeave] and [handleDrop]. *)
Definition handleDragOver (s : Uploader.t) : Uploader.t := setIsDragging true s.

Definition handleDragLeave (s : Uploader.t) : Uploader.t := setIsDragging false s.

Definition handleDrop (files : list File.t) (s : Uploader.t) : UploadCall :=
  handleFileSelect (hd_error files) (setIsDragging false s).

(** The page that [handleGenerate] sees when the session is [s]. *)
Definition page_of_session (s : Uploader.t) (p : Page.t) : Page.t :=
  Page.mk (Uploader.jobId s) (Page.isGenerating p) (Page.generatedAssets p)
    (Page.outputs p) (Page.globalSettings p).

(** The job id of the upload response that resolved, if one did. *)
Fixpoint uploaded_job (events : list UploadEvent) : option (option string) :=
  match events with
  | [] => None
  | upload_settled (resolved job_id) :: _ => Some job_id
  | _ :: rest => uploaded_job rest
  end.




(** ** PreviewGrid: what a card shows, and the document body *)

(** The [alt] attribute of a preview image:
    [asset.alt_text || `${asset.output_type} preview`]. *)
Definition preview_alt (asset : Asset.t) : string :=
  or_else (Asset.alt_text asset) (Asset.output_type asset ++ " preview").

Definition is_click (e : Effect) : bool :=
  match e with
  | click _ => true
  | _ => false
  end.

(** The number of anchors attached to [document.body] after the effects,
    from [body] anchors before. *)
Definition attached_after (body : Z) (effects : list Effect) : Z :=
  fold_left
    (fun n e =>
       match e with
       | appendChild _ => n + 1
       | removeChild _ => n - 1
       | _ => n
       end)
    effects body.

(** * Proofs *)

(** ** Registry *)

Section ListFacts.
Context {A B : Type}.

Lemma Forall2_map_right (P : A -> B -> Prop) (f : A -> B) (l : list A) :
  (forall x, In x l -> P x (f x)) -> Forall2 P l (map f l).
Proof.
  induction l as [|x l IH]; intros H; simpl; constructor.
  - apply H. now left.
  - apply IH. intros y Hy. apply H. now right.
Qed.

Lemma map_unchanged (f : A -> A) (l : list A) :
  (forall x, In x l -> f x = x) -> map f l = l.
Proof.
  induction l as [|x l IH]; intros H; simpl; [reflexivity|].
  rewrite H by now left. f_equal. apply IH. intros y Hy. apply H. now right.
Qed.

End ListFacts.

Lemma Forall2_map_map {A : Type} (P : A -> A -> Prop) (f g : A -> A) (l : list A) :
  (forall x, In x l -> P x (g (f x))) -> Forall2 P l (map g (map f l)).
Proof.
  intros H. rewrite map_map. now apply Forall2_map_right.
Qed.

Lemma includes_true (arr : list string) (x : string) :
  includes arr x = true <-> In x arr.
Proof.
  unfold includes. rewrite existsb_exists. split.
  - intros [y [Hy E]]. apply String.eqb_eq in E. now subst.
  - intros H. exists x. split; [assumption | apply String.eqb_refl].
Qed.

Lemma includes_false (arr : list string) (x : string) :
  includes arr x = false <-> ~ In x arr.
Proof.
  rewrite <- includes_true. destruct (includes arr x); split; congruence.
Qed.

Lemma includes_ext (arr arr' : list string) :
  (forall x, In x arr' <-> In x arr) -> forall x, includes arr' x = includes arr x.
Proof.
  intros H x. destruct (includes arr x) eqn:E.
  - apply includes_true, H, includes_true, E.
  - apply includes_false. intros Hin. apply includes_false in E. apply E, H, Hin.
Qed.

Lemma filter_absent (arr : list string) (x : string) :
  ~ In x arr -> filter (fun f => negb (String.eqb f x)) arr = arr.
Proof.
  induction arr as [|y arr IH]; intros H; simpl; [reflexivity|].
  destruct (String.eqb_spec y x) as [->|Hne]; simpl.
  - exfalso. apply H. now left.
  - f_equal. apply IH. intros Hin. apply H. now right.
Qed.

(** Toggling a format twice: the array has the members it had (it is the
    same array when the format was absent). *)
Lemma toggled_twice (formats : list string) (format x : string) :
  In x (toggled (toggled formats format) format) <-> In x formats.
Proof.
  unfold toggled at 2. destruct (includes formats format) eqn:E.
  - unfold toggled.
    assert (Hout : includes (filter (fun f => negb (String.eqb f format)) formats) format
                   = false).
    { apply includes_false. rewrite filter_In. intros [_ H].
      rewrite String.eqb_refl in H. discriminate. }
    rewrite Hout. rewrite in_app_iff, filter_In. apply includes_true in E.
    split.
    + intros [[H _]|[<-|[]]]; assumption.
    + intros H. destruct (String.eqb_spec x format) as [->|Hne].
      * right. now left.
      * left. split; [assumption | reflexivity].
  - unfold toggled.
    assert (Hin : includes (formats ++ [format]) format = true).
    { apply includes_true. rewrite in_app_iff. right. now left. }
    rewrite Hin. rewrite filter_app. simpl. rewrite String.eqb_refl. simpl.
    rewrite app_nil_r. rewrite filter_absent by now apply includes_false.
    reflexivity.
Qed.

Lemma assign_same_except (a : Assignment) (o : Output.t) :
  same_except (field_of a) o (assign a o).
Proof.
  intros g Hg. destruct a, g; simpl in *; congruence.
Qed.

Lemma with_formats_same_except (formats : list string) (o : Output.t) :
  same_except f_formats o (with_formats formats o).
Proof.
  intros g Hg. destruct g; simpl in *; congruence.
Qed.

Lemma same_except_refl (f : Field) (o : Output.t) : same_except f o o.
Proof.
  intros g _. destruct g; reflexivity.
Qed.

(** C10: [updateOutput] and [toggleFormat] keep the registry's length and
    order; entry by entry, an entry whose id differs from the given id is
    unchanged, and the entry with the given id keeps every field other than
    the named field (for [toggleFormat], other than [formats]); when no entry
    has the given id the whole registry is unchanged. *)
Theorem update_and_toggle_frame
  (id : string) (a : Assignment) (format : string) (outputs : list Output.t) :
  Forall2 (fun o o' => (Output.id o <> id -> o' = o) /\ same_except (field_of a) o o')
    outputs (updateOutput id a outputs)
  /\ Forall2 (fun o o' => (Output.id o <> id -> o' = o) /\ same_except f_formats o o')
       outputs (toggleFormat id format outputs)
  /\ ((forall o, In o outputs -> Output.id o <> id) ->
      updateOutput id a outputs = outputs /\ toggleFormat id format outputs = outputs).
Proof.
  split; [|split].
  - apply Forall2_map_right. intros o _.
    destruct (String.eqb_spec (Output.id o) id) as [E|E]; split.
    + intros H. contradiction.
    + apply assign_same_except.
    + reflexivity.
    + apply same_except_refl.
  - apply Forall2_map_right. intros o _.
    destruct (String.eqb_spec (Output.id o) id) as [E|E]; split.
    + intros H. contradiction.
    + apply with_formats_same_except.
    + reflexivity.
    + apply same_except_refl.
  - intros H. split; apply map_unchanged; intros o Ho;
      apply H in Ho; apply String.eqb_neq in Ho; rewrite Ho; reflexivity.
Qed.

(** C8: after [toggleFormat] is applied twice with the same id and the same
    format, every entry has the formats membership it had ([includes] answers
    the same for every format) and its other fields are unchanged. *)
Theorem toggleFormat_twice_membership
  (outputId format : string) (outputs : list Output.t) :
  Forall2
    (fun o o' =>
       same_except f_formats o o'
       /\ forall g, includes (Output.formats o') g = includes (Output.formats o) g)
    outputs (toggleFormat outputId format (toggleFormat outputId format outputs)).
Proof.
  unfold toggleFormat. apply Forall2_map_map. intros o _.
  destruct (String.eqb_spec (Output.id o) outputId) as [E|E]; simpl.
  - apply String.eqb_eq in E. rewrite E. split.
    + intros g Hg. destruct g; simpl in *; congruence.
    + apply includes_ext. intros x. simpl. apply toggled_twice.
  - apply String.eqb_neq in E. rewrite E. split.
    + apply same_except_refl.
    + reflexivity.
Qed.

(** *** Removing entries *)

(** Removing entries keeps the ids that remain pairwise distinct. *)
Lemma removeOutput_ids_NoDup (id : string) (outputs : list Output.t) :
  NoDup (map Output.id outputs) -> NoDup (map Output.id (removeOutput id outputs)).
Proof.
  unfold removeOutput. induction outputs as [|o outputs IH]; intros Hnd.
  - constructor.
  - cbn [map] in Hnd. apply NoDup_cons_iff in Hnd. destruct Hnd as [Ho Hrest].
    cbn [filter]. destruct (negb (String.eqb (Output.id o) id)); [|now apply IH].
    cbn [map]. apply NoDup_cons; [|now apply IH].
    intros Hin. apply Ho. apply in_map_iff in Hin. destruct Hin as [o' [E Ho']].
    apply filter_In in Ho'. apply in_map_iff. exists o'. split; [exact E | apply Ho'].
Qed.

Lemma removeOutput_absent (id : string) (outputs : list Output.t) :
  (forall o, In o outputs -> Output.id o <> id) -> removeOutput id outputs = outputs.
Proof.
  unfold removeOutput. induction outputs as [|o outputs IH]; intros H; simpl;
    [reflexivity|].
  destruct (String.eqb_spec (Output.id o) id) as [Eo|Eo].
  - exfalso. apply (H o); [now left | assumption].
  - simpl. f_equal. apply IH. intros o' Ho'. apply H. now right.
Qed.

Lemma removeOutput_length (id : string) (outputs : list Output.t) :
  NoDup (map Output.id outputs) ->
  List.length (removeOutput id outputs)
  = (List.length outputs - (if includes (map Output.id outputs) id then 1 else 0))%nat.
Proof.
  induction outputs as [|o outputs IH]; intros Hnd; [reflexivity|].
  cbn [map] in Hnd. apply NoDup_cons_iff in Hnd. destruct Hnd as [Ho Hrest].
  unfold removeOutput, includes. cbn [filter map existsb].
  fold (removeOutput id outputs). fold (includes (map Output.id outputs) id).
  destruct (String.eqb_spec (Output.id o) id) as [E|E]; cbn [negb orb].
  - rewrite removeOutput_absent; [cbn [List.length]; lia|].
    intros o' Ho' E'. apply Ho. rewrite E, <- E'. now apply in_map.
  - cbn [List.length]. rewrite (IH Hrest).
    destruct (includes (map Output.id outputs) id) eqn:I; [|lia].
    apply includes_true in I. destruct outputs; [contradiction | cbn [List.length]; lia].
Qed.

(** One click on Remove, on a registry whose ids are pairwise distinct. *)
Lemma remove_once (outputs : list Output.t) (id : string) :
  NoDup (map Output.id outputs) ->
  outputs <> [] ->
  (1 <= List.length (panel_step outputs (ClickRemove id)))%nat
  /\ NoDup (map Output.id (panel_step outputs (ClickRemove id)))
  /\ (List.length outputs = 1%nat -> panel_step outputs (ClickRemove id) = outputs)
  /\ ((1 < List.length outputs)%nat ->
      (forall o, In o (panel_step outputs (ClickRemove id))
                 <-> In o outputs /\ Output.id o <> id)
      /\ List.length (panel_step outputs (ClickRemove id))
         = (List.length outputs
            - (if includes (map Output.id outputs) id then 1 else 0))%nat).
Proof.
  intros Hnd Hne. cbn [panel_step]. unfold remove_button_rendered.
  assert (Hlen : (1 <= List.length outputs)%nat).
  { destruct outputs; [contradiction | cbn [List.length]; lia]. }
  destruct (Nat.ltb_spec 1 (List.length outputs)) as [G|G].
  - pose proof (removeOutput_length id outputs Hnd) as L.
    split; [|split; [|split; [|intros _; split]]].
    + rewrite L. destruct (includes (map Output.id outputs) id); lia.
    + now apply removeOutput_ids_NoDup.
    + intros E. lia.
    + intros o. unfold removeOutput. rewrite filter_In, Bool.negb_true_iff.
      now rewrite String.eqb_neq.
    + exact L.
  - split; [|split; [|split]]; try assumption; try reflexivity.
    intros G'. lia.
Qed.

(** Without distinct ids the conclusion can fail in this model: two entries
    that share an id are removed by one click.  Such a registry needs two adds
    of one type that read the same [Date.now()]; the data model excludes it,
    and React does not support rendering it (the ids are the keys). *)
Lemma twin_banners_reachable :
  map Output.id
    (panel_run initial_outputs
       [SelectAddOutput "banner" 1700000000000;
        SelectAddOutput "banner" 1700000000000;
        ClickRemove "poster"])
  = ["banner_1700000000000"; "banner_1700000000000"].
Proof. reflexivity. Qed.

Lemma remove_can_empty_registry : ~ remove_never_empties.
Proof.
  intros H.
  apply (H (panel_run initial_outputs
              [SelectAddOutput "banner" 1700000000000;
               SelectAddOutput "banner" 1700000000000;
               ClickRemove "poster"])
           "banner_1700000000000").
  - discriminate.
  - reflexivity.
Qed.

(** C5: on an OutputSpec registry (its ids are pairwise distinct, as the
    data model has them) that has an entry, the panel's remove never reduces
    the registry below one entry.  On a registry of one entry the remove is
    blocked and the registry is unchanged; on a larger one it removes exactly
    the entry that has the id (none when no entry has it) and keeps the
    others; the ids stay distinct, and so after any number of removes, of any
    ids, at least one entry is left. *)
Theorem remove_leaves_an_entry
  (outputs : list Output.t) (id : string) (ids : list string) :
  NoDup (map Output.id outputs) ->
  outputs <> [] ->
  (1 <= List.length (panel_step outputs (ClickRemove id)))%nat
  /\ (List.length outputs = 1%nat -> panel_step outputs (ClickRemove id) = outputs)
  /\ ((1 < List.length outputs)%nat ->
      (forall o, In o (panel_step outputs (ClickRemove id))
                 <-> In o outputs /\ Output.id o <> id)
      /\ List.length (panel_step outputs (ClickRemove id))
         = (List.length outputs
            - (if includes (map Output.id outputs) id then 1 else 0))%nat)
  /\ (1 <= List.length
             (fold_left (fun l i => panel_step l (ClickRemove i)) ids outputs))%nat.
Proof.
  intros Hnd Hne.
  destruct (remove_once outputs id Hnd Hne) as [H1 [_ [H3 H4]]].
  repeat split; try assumption; try apply H4; try assumption.
  clear H1 H3 H4. revert outputs Hnd Hne.
  induction ids as [|i ids IH]; intros outputs Hnd Hne; cbn [fold_left].
  - destruct outputs; [contradiction | cbn [List.length]; lia].
  - destruct (remove_once outputs i Hnd Hne) as [H1 [H2 _]].
    apply IH; [exact H2|]. intros E. rewrite E in H1. cbn in H1. lia.
Qed.

Lemma remove_leaves_an_entry_witness :
  List.length (panel_step poster_and_banner (ClickRemove "poster")) = 1%nat
  /\ (forall o, In o (panel_step poster_and_banner (ClickRemove "poster"))
                <-> In o poster_and_banner /\ Output.id o <> "poster")
  /\ (1 <= List.length
             (fold_left (fun l i => panel_step l (ClickRemove i))
                ["poster"; "banner_1700000000000"] poster_and_banner))%nat.
Proof.
  destruct (remove_leaves_an_entry poster_and_banner "poster"
              ["poster"; "banner_1700000000000"]) as [_ [_ [H H']]].
  - repeat constructor; simpl; intuition discriminate.
  - discriminate.
  - assert (G : (1 < List.length poster_and_banner)%nat) by (cbn; lia).
    destruct (H G) as [Hin Hlen].
    split; [exact Hlen | split; [exact Hin | exact H']].
Defined.

Lemma OUTPUT_TYPES_positive (t : OutputType) :
  In t OUTPUT_TYPES -> 0 < defaultWidth t /\ 0 < defaultHeight t.
Proof.
  unfold OUTPUT_TYPES. simpl.
  intros [<-|[<-|[<-|[<-|[<-|[]]]]]]; simpl; lia.
Qed.

Lemma addOutput_positive (now : Z) (type : string) (outputs outputs' : list Output.t) :
  Forall dims_positive outputs ->
  addOutput now type outputs = Some outputs' ->
  Forall dims_positive outputs'.
Proof.
  intros H. unfold addOutput.
  destruct (find (fun t => String.eqb (ot_id t) type) OUTPUT_TYPES) as [t|] eqn:F;
    [|discriminate].
  intros [= <-]. apply Forall_app. split; [assumption|].
  constructor; [|constructor].
  apply find_some in F. destruct F as [F _].
  apply OUTPUT_TYPES_positive in F. exact F.
Qed.

Lemma updateOutput_positive (id : string) (a : Assignment) (outputs : list Output.t) :
  (forall o, dims_positive o -> dims_positive (assign a o)) ->
  Forall dims_positive outputs ->
  Forall dims_positive (updateOutput id a outputs).
Proof.
  intros Ha H. unfold updateOutput. apply Forall_map.
  eapply Forall_impl; [|exact H]. intros o Ho.
  destruct (String.eqb (Output.id o) id); auto.
Qed.

Lemma panel_step_positive (outputs : list Output.t) (e : PanelEvent) :
  types_positive e ->
  Forall dims_positive outputs ->
  Forall dims_positive (panel_step outputs e).
Proof.
  intros He H. destruct e; simpl in *.
  - destruct (addOutput now type outputs) as [outputs'|] eqn:E; [|assumption].
    eapply addOutput_positive; eassumption.
  - apply updateOutput_positive; [|assumption]. intros o Ho. exact Ho.
  - apply updateOutput_positive; [|assumption]. intros o Ho. exact Ho.
  - apply updateOutput_positive; [|assumption]. intros o [_ Hh]. split; assumption.
  - apply updateOutput_positive; [|assumption]. intros o [Hw _]. split; assumption.
  - unfold toggleFormat. apply Forall_map.
    eapply Forall_impl; [|exact H]. intros o Ho.
    destruct (String.eqb (Output.id o) id); auto.
  - apply updateOutput_positive; [|assumption]. intros o Ho. exact Ho.
  - destruct (remove_button_rendered outputs); [|assumption].
    unfold removeOutput. apply Forall_forall. intros o Ho.
    apply filter_In in Ho. destruct Ho as [Ho _].
    rewrite Forall_forall in H. now apply H.
Qed.

(** What the width box stores in the entries of the given id. *)
Lemma typed_width_stored (outputs : list Output.t) (id text : string) :
  Forall2
    (fun o o' =>
       if String.eqb (Output.id o) id
       then Output.width o' = or_zero (parseInt text)
       else o' = o)
    outputs (panel_step outputs (TypeWidth id text)).
Proof.
  simpl. unfold updateOutput. apply Forall2_map_right. intros o _.
  destruct (String.eqb (Output.id o) id); reflexivity.
Qed.

(** [removeOutput] itself has no guard. *)
Example removeOutput_unguarded : removeOutput "poster" initial_outputs = [].
Proof. reflexivity. Qed.

(** C6, counterexample: the user empties the width box of the poster;
    [parseInt] of the empty text is [NaN] and the handler stores 0. *)
Lemma cleared_width_is_zero : ~ sizes_always_positive.
Proof.
  intros H. specialize (H [TypeWidth "poster" ""]).
  inversion H as [|o l [Hw _] _]; subst. discriminate Hw.
Qed.

(** C6, amended: from a registry whose entries have positive width and
    height, after any sequence of panel operations (add, update, toggle of a
    format, remove) in which every text typed as a width or a height is read
    by [parseInt] as a positive integer, every entry has positive width and
    height. *)
Theorem sizes_positive_when_typed_positive
  (outputs : list Output.t) (events : list PanelEvent) :
  Forall dims_positive outputs ->
  Forall types_positive events ->
  Forall dims_positive (panel_run outputs events).
Proof.
  intros H He. revert outputs H.
  induction He as [|e events He _ IH]; intros outputs H; simpl.
  - assumption.
  - apply IH. now apply panel_step_positive.
Qed.

Lemma sizes_positive_when_typed_positive_witness :
  Forall dims_positive
    (panel_run initial_outputs
       [SelectAddOutput "banner" 1700000000000;
        TypeWidth "poster" "2160";
        CheckFormat "poster" "svg";
        TypeHeight "poster" "2700";
        ClickRemove "banner_1700000000000"]).
Proof.
  apply sizes_positive_when_typed_positive.
  - constructor; [|constructor]. split; reflexivity.
  - repeat constructor.
Defined.

(** ** Saving assets *)

Lemma enqueue_last (t : Timer) (queue : list Timer) :
  Forall (fun u => delay_le u t) queue -> enqueue t queue = (queue ++ [t])%list.
Proof.
  induction 1 as [|u queue Hu _ IH]; simpl; [reflexivity|].
  unfold delay_le in Hu.
  destruct (Z.ltb_spec (delay t) (delay u)); [lia|].
  now rewrite IH.
Qed.

(** Timers registered by increasing delay run in registration order. *)
Lemma fold_enqueue_sorted (timers queue : list Timer) :
  StronglySorted delay_le (queue ++ timers) ->
  fold_left (fun q t => enqueue t q) timers queue = (queue ++ timers)%list.
Proof.
  revert queue. induction timers as [|t timers IH]; intros queue H; simpl.
  - now rewrite app_nil_r.
  - assert (Hq : Forall (fun u => delay_le u t) queue).
    { clear IH. induction queue as [|u queue IHq]; [constructor|].
      simpl in H. inversion H as [|x l Hs Hall]; subst. constructor.
      - rewrite Forall_forall in Hall. apply Hall.
        rewrite in_app_iff. right. now left.
      - now apply IHq. }
    rewrite (enqueue_last t queue Hq).
    rewrite IH; rewrite <- app_assoc; simpl; [reflexivity | assumption].
Qed.

Lemma timer_queue_sorted (timers : list Timer) :
  StronglySorted delay_le timers -> timer_queue timers = timers.
Proof.
  intros H. unfold timer_queue. now rewrite fold_enqueue_sorted.
Qed.

Lemma forEach_In {A B : Type} (f : A -> Z -> B) (arr : list A) (index : Z) (y : B) :
  In y (forEach f arr index) -> exists x i, In x arr /\ index <= i /\ y = f x i.
Proof.
  revert index. induction arr as [|x arr IH]; intros index; simpl; [intros []|].
  intros [<-|H].
  - exists x, index. repeat split; [now left | lia].
  - destruct (IH _ H) as [x' [i [Hx [Hi ->]]]].
    exists x', i. repeat split; [now right | lia].
Qed.

Lemma forEach_sorted {A : Type} (f : A -> Z -> Timer) (arr : list A) (index : Z) :
  (forall x i, delay (f x i) = i * 100) ->
  StronglySorted delay_le (forEach f arr index).
Proof.
  intros Hf. revert index.
  induction arr as [|x arr IH]; intros index; simpl; constructor.
  - apply IH.
  - apply Forall_forall. intros u Hu.
    destruct (forEach_In _ _ _ _ Hu) as [x' [i [_ [Hi ->]]]].
    unfold delay_le. rewrite !Hf. lia.
Qed.

Lemma map_forEach {A B C : Type} (g : B -> C) (f : A -> Z -> B) (arr : list A) (index : Z) :
  map g (forEach f arr index) = forEach (fun x i => g (f x i)) arr index.
Proof.
  revert index. induction arr as [|x arr IH]; intros index; simpl; [reflexivity|].
  now rewrite IH.
Qed.

(** The calls that [forEach] makes: one for each element, in list order,
    with the element's position as index. *)
Lemma forEach_indexed {A B : Type} (f : A -> Z -> B) (arr : list A) (k : nat) :
  forEach f arr (Z.of_nat k)
  = map (fun p => f (snd p) (Z.of_nat (fst p))) (combine (seq k (List.length arr)) arr).
Proof.
  revert k. induction arr as [|x arr IH]; intros k; [reflexivity|].
  cbn [forEach List.length seq combine map fst snd]. f_equal.
  replace (Z.of_nat k + 1) with (Z.of_nat (S k)) by lia. apply IH.
Qed.

Lemma nth_error_indexed {A B : Type} (g : nat * A -> B) (l : list A) (k i : nat) (a : A) :
  nth_error l i = Some a ->
  nth_error (map g (combine (seq k (List.length l)) l)) i = Some (g ((k + i)%nat, a)).
Proof.
  revert k i. induction l as [|x l IH]; intros k [|i] H; cbn in H; try discriminate H.
  - injection H as ->. cbn. now rewrite Nat.add_0_r.
  - cbn [List.length seq combine map nth_error]. rewrite (IH (S k) i H).
    do 3 f_equal. lia.
Qed.

(** C9: the timers registered by [handleDownloadAll] run one per asset, in
    the order of the list: there are as many as assets, and the one that runs
    in position [i] runs [i * 100] ms after the call and does what
    [downloadAsset] does for the asset at index [i]; the file name that
    [downloadAsset] gives is the one of the pattern
    [asset_{type}_{language}_{width}x{height}.{format}]. *)
Theorem download_all_in_order (generatedAssets : list Asset.t) :
  run_timers (fst (handleDownloadAll generatedAssets))
  = map (fun p => (Z.of_nat (fst p) * 100, downloadAsset (snd p)))
      (combine (seq 0 (List.length generatedAssets)) generatedAssets)
  /\ List.length (run_timers (fst (handleDownloadAll generatedAssets)))
     = List.length generatedAssets
  /\ (forall i asset,
        nth_error generatedAssets i = Some asset ->
        nth_error (run_timers (fst (handleDownloadAll generatedAssets))) i
        = Some (Z.of_nat i * 100, downloadAsset asset))
  /\ forall asset,
       exists link,
         downloadAsset asset = [appendChild link; click link; removeChild link]
         /\ download link
            = pattern_filename (Asset.output_type asset) (Asset.language asset)
                (Asset.width asset) (Asset.height asset) (Asset.format asset).
Proof.
  assert (E : run_timers (fst (handleDownloadAll generatedAssets))
              = map (fun p => (Z.of_nat (fst p) * 100, downloadAsset (snd p)))
                  (combine (seq 0 (List.length generatedAssets)) generatedAssets)).
  { unfold run_timers, handleDownloadAll. simpl fst.
    rewrite timer_queue_sorted by (apply forEach_sorted; reflexivity).
    rewrite map_forEach. change 0 with (Z.of_nat 0).
    rewrite forEach_indexed. reflexivity. }
  split; [exact E|]. split; [|split].
  - rewrite E, length_map, length_combine, length_seq. apply Nat.min_id.
  - intros i asset H. rewrite E.
    apply (nth_error_indexed
             (fun p => (Z.of_nat (fst p) * 100, downloadAsset (snd p)))
             generatedAssets 0 i asset H).
  - intros asset. eexists. split; reflexivity.
Qed.

(** ** The generation job controller *)

Lemma filter_none_enabled (outputs : list Output.t) :
  (forall o, In o outputs -> Output.enabled o = false) ->
  filter Output.enabled outputs = [].
Proof.
  induction outputs as [|o outputs IH]; intros H; simpl; [reflexivity|].
  rewrite (H o) by now left. apply IH. intros o' Ho'. apply H. now right.
Qed.

(** C3: when the page has no job id, or when no output is enabled,
    [handleGenerate] leaves the page state as it is, starts nothing (no
    request, no timer), makes no network call, and shows one notification:
    the one of [NoUpload] when there is no job id, whatever the outputs are,
    and otherwise the one of [NoOutputsSelected]. *)
Theorem generate_rejected (now : Z) (p : Page.t) :
  no_jobId (Page.jobId p) = true
  \/ (forall o, In o (Page.outputs p) -> Output.enabled o = false) ->
  page (handleGenerate now p) = p
  /\ nothing_pending (handleGenerate now p)
  /\ (forall e, In e (log (handleGenerate now p)) -> is_network_call e = false)
  /\ log (handleGenerate now p)
     = [toast_error
          (rejection_message
             (if no_jobId (Page.jobId p) then NoUpload else NoOutputsSelected))].
Proof.
  intros H. unfold handleGenerate.
  destruct (no_jobId (Page.jobId p)) eqn:J.
  - repeat split. intros e [<-|[]]. reflexivity.
  - destruct H as [H|H]; [discriminate|].
    rewrite (filter_none_enabled _ H). simpl.
    repeat split. intros e [<-|[]]. reflexivity.
Qed.

Lemma generate_rejected_witness :
  log (handleGenerate 0 initial_page) = [toast_error (rejection_message NoUpload)]
  /\ log (handleGenerate 0
            (Page.mk (Some "J1") false []
               (updateOutput "poster" (Enabled false) initial_outputs)
               (Page.globalSettings initial_page)))
     = [toast_error (rejection_message NoOutputsSelected)].
Proof.
  split.
  - apply (generate_rejected 0 initial_page). left. reflexivity.
  - apply (generate_rejected 0
             (Page.mk (Some "J1") false []
                (updateOutput "poster" (Enabled false) initial_outputs)
                (Page.globalSettings initial_page))).
    right. intros o [<-|[]]. reflexivity.
Defined.

(** C7, counterexample: the user unticks the three formats of the poster
    and clicks Generate; the request is sent with an empty [formats]. *)
Lemma empty_formats_submitted : ~ submitted_formats_never_empty.
Proof.
  intros H.
  pose (outputs :=
          panel_run initial_outputs
            [CheckFormat "poster" "png"; CheckFormat "poster" "jpeg";
             CheckFormat "poster" "pdf"]).
  pose (p := Page.mk (Some "J1") false [] outputs (Page.globalSettings initial_page)).
  apply (H 0 p
           {| Request.job_id := "J1";
              Request.outputs := map to_wire outputs;
              Request.settings := Page.globalSettings initial_page |}
           (Wire.mk "poster" "English" 1080 1350 [] true)).
  - left. reflexivity.
  - left. reflexivity.
  - reflexivity.
Qed.

(** C7, amended: the request of an accepted submission holds the enabled
    outputs of the registry, in registry order and at least one, each with
    the type, language, width, height, print flag and [formats] array it has
    in the registry; the array is sent as it is, empty or not. *)
Theorem submitted_outputs_are_the_enabled_ones
  (now : Z) (p : Page.t) (request : Request.t) :
  In (axios_post_generate request) (log (handleGenerate now p)) ->
  Request.outputs request <> []
  /\ Forall2
       (fun o w =>
          In o (Page.outputs p) /\ Output.enabled o = true
          /\ Wire.formats w = Output.formats o
          /\ Wire.type w = Output.type o /\ Wire.language w = Output.language o
          /\ Wire.width w = Output.width o /\ Wire.height w = Output.height o
          /\ Wire.generate_print w = Output.generatePrint o)
       (filter Output.enabled (Page.outputs p)) (Request.outputs request).
Proof.
  unfold handleGenerate.
  destruct (no_jobId (Page.jobId p)); [intros [H|[]]; discriminate|].
  destruct (filter Output.enabled (Page.outputs p)) as [|o l] eqn:F;
    [intros [H|[]]; discriminate|].
  simpl. intros [[= <-]|[]]. simpl. split; [discriminate|].
  rewrite <- F. change (to_wire o :: map to_wire l) with (map to_wire (o :: l)).
  rewrite <- F. apply Forall2_map_right. intros x Hx.
  apply filter_In in Hx. destruct Hx as [Hin Hen].
  repeat split; try assumption. simpl. apply Bool.orb_false_r.
Qed.

Lemma submitted_outputs_are_the_enabled_ones_witness :
  Request.outputs
    {| Request.job_id := "J1";
       Request.outputs := map to_wire initial_outputs;
       Request.settings := Page.globalSettings initial_page |} <> [].
Proof.
  apply (submitted_outputs_are_the_enabled_ones 0 uploaded_page).
  left. reflexivity.
Defined.

(** The handler that the Generate button runs was created by a render in
    which the button was enabled, so the [isGenerating] it holds is [false]. *)
Lemma clicked_closure_not_generating (now : Z) (p : Page.t) :
  generate_button_disabled p = false ->
  captured_isGenerating (handleGenerate now p) = false.
Proof.
  unfold generate_button_disabled. intros H.
  apply Bool.orb_false_iff in H. destruct H as [_ H].
  unfold handleGenerate.
  destruct (no_jobId (Page.jobId p)); [exact H|].
  destruct (List.length (filter Output.enabled (Page.outputs p)) =? 0)%nat; exact H.
Qed.

(** With that closure the timeout callback clears the interval and does
    nothing else: the page state and the log are as they were. *)
Lemma on_timeout_stale_closure (c : Controller) :
  captured_isGenerating c = false ->
  page (on_timeout c) = page c /\ log (on_timeout c) = log c
  /\ pollInterval (on_timeout c) = None.
Proof.
  intros H. unfold on_timeout. rewrite H. repeat split.
Qed.

(** C1, the code at the failing input: the page has job id [J1] and the
    default poster, the Generate button is enabled and clicked, the
    submission is accepted at instant 0, the 99 polls sent before the timeout
    answer [pending], and the timeout callback runs at 300000.  The interval
    is cleared, but [isGenerating] is still [true] and the only notification
    ever shown is the one of the accepted submission: the timeout is not
    reported. *)
Theorem stuck_job_timeout_not_reported :
  generate_button_disabled uploaded_page = false
  /\ exists c,
       run (handleGenerate 0 uploaded_page) stuck_job = Some c
       /\ clock c = 300000
       /\ pollInterval c = None
       /\ List.length (status_queries (log c)) = 99%nat
       /\ Page.isGenerating (page c) = true
       /\ toasts (log c) = [toast_success "Generation started! This may take a moment..."].
Proof.
  split; [reflexivity|].
  eexists. split; [vm_compute; reflexivity|].
  repeat split.
Qed.

(** A transport error of a poll is written to the console only. *)
Lemma on_jobs_rejected (detail : option string) (c : Controller) :
  log (on_jobs_settled (rejected detail) c) = (log c ++ [console_error "Polling error:"])%list
  /\ pollInterval (on_jobs_settled (rejected detail) c) = None
  /\ Page.isGenerating (page (on_jobs_settled (rejected detail) c)) = false.
Proof.
  repeat split.
Qed.

(** C4, the code at the failing input: the submission of job [J1] is
    accepted and the first poll fails in transport.  The interval is cleared,
    [isGenerating] is [false] and the Generate button is enabled again, but
    the error is only written to the console: no notification is shown for
    it. *)
Theorem broken_poll_not_notified :
  exists c,
    run (handleGenerate 0 uploaded_page) broken_poll = Some c
    /\ pollInterval c = None
    /\ Page.isGenerating (page c) = false
    /\ generate_button_disabled (page c) = false
    /\ skipn 2 (log c) = [axios_get_jobs "J1"; console_error "Polling error:"]
    /\ toasts (log c) = [toast_success "Generation started! This may take a moment..."].
Proof.
  eexists. split; [vm_compute; reflexivity|].
  repeat split.
Qed.

(** C2, counterexample: two polls are in flight when the first answers
    [failed]; the answer of the second is handled after the failure has been
    recorded. *)
Lemma poll_handled_after_failure : ~ nothing_after_terminal.
Proof.
  intros H.
  destruct (run (handleGenerate 0 uploaded_page) (firstn 3 overlapping_polls))
    as [c1|] eqn:E1; [|discriminate].
  destruct (step c1 (6100, jobs_settled (resolved {| status := "failed"; error := None |})))
    as [c2|] eqn:E2; [|vm_compute in E1; injection E1 as <-; discriminate].
  destruct (run c2 (skipn 4 overlapping_polls)) as [c3|] eqn:E3;
    [|vm_compute in E1; injection E1 as <-; vm_compute in E2; injection E2 as <-;
      discriminate].
  apply (H 0 uploaded_page _ _ _ c1 c2 c3 E1 E2 ltac:(discriminate) E3
           (6200, jobs_settled (resolved {| status := "failed"; error := None |}))).
  left. reflexivity.
Qed.

(** In that run the failure is notified twice. *)
Example overlapping_polls_notified_twice :
  option_map (fun c => toasts (log c)) (run (handleGenerate 0 uploaded_page) overlapping_polls)
  = Some [toast_success "Generation started! This may take a moment...";
          toast_error "Generation failed"; toast_error "Generation failed"].
Proof. vm_compute. reflexivity. Qed.

Lemma handleGenerate_coherent (now : Z) (p : Page.t) : coherent (handleGenerate now p).
Proof.
  unfold handleGenerate, coherent.
  destruct (no_jobId (Page.jobId p)); simpl.
  - split; [discriminate | lia].
  - destruct (List.length (filter Output.enabled (Page.outputs p)) =? 0)%nat; simpl.
    + split; [discriminate | lia].
    + split; [auto | lia].
Qed.

Lemma step_coherent (c c' : Controller) (te : Z * Event) :
  coherent c -> step c te = Some c' -> coherent c'.
Proof.
  intros [Hp Hf] H. destruct te as [t e]. step_cases H.
  - destruct (posting c) eqn:P; [|discriminate H].
    destruct (Hp eq_refl) as [Hi [Ht [Hq Hfz]]].
    injection H as <-. destruct r; split; cbn; try discriminate; rewrite ?Hfz; lia.
  - destruct (pollInterval c) as [due|] eqn:I; [|discriminate H].
    destruct (t =? due); [|discriminate H]. injection H as <-.
    split; cbn.
    + intros P. destruct (Hp P) as [? _]. discriminate.
    + intros F. specialize (Hf F). discriminate.
  - destruct (polls_in_flight c) as [|n] eqn:Q; [discriminate H|].
    injection H as <-.
    assert (P : posting c = false).
    { destruct (posting c); [|reflexivity]. destruct (Hp eq_refl) as [_ [_ [? _]]].
      discriminate. }
    unfold on_jobs_settled. destruct r as [d|d].
    + destruct (String.eqb (status d) "completed");
        [|destruct (String.eqb (status d) "failed")]; split; cbn; rewrite ?P;
        try discriminate; auto.
    + split; cbn; rewrite ?P; try discriminate; auto.
  - destruct (fetches_in_flight c) as [|n] eqn:F; [discriminate H|].
    injection H as <-.
    assert (P : posting c = false).
    { destruct (posting c); [|reflexivity]. destruct (Hp eq_refl) as [_ [_ [_ ?]]].
      discriminate. }
    assert (I : pollInterval c = None) by (apply Hf; lia).
    destruct r; split; cbn; rewrite ?P; try discriminate; auto.
  - destruct (timeoutTimer c) as [due|] eqn:T; [|discriminate H].
    destruct (t =? due); [|discriminate H]. injection H as <-.
    assert (P : posting c = false).
    { destruct (posting c); [|reflexivity]. destruct (Hp eq_refl) as [_ [? _]].
      discriminate. }
    unfold on_timeout. cbn. destruct (captured_isGenerating c); split; cbn; rewrite ?P;
      try discriminate; auto.
Qed.

Lemma run_coherent (events : list (Z * Event)) (c c' : Controller) :
  coherent c -> run c events = Some c' -> coherent c'.
Proof.
  revert c. induction events as [|te events IH]; intros c Hc H; simpl in H.
  - now injection H as <-.
  - destruct (step c te) as [c1|] eqn:S; [|discriminate].
    eapply IH; [|exact H]. eapply step_coherent; eassumption.
Qed.

(** The handling of an event that records a terminal state leaves the
    interval stopped. *)
Lemma terminal_stops_interval (c c' : Controller) (te : Z * Event) :
  coherent c -> step c te = Some c' -> classification c (snd te) <> None ->
  interval_stopped c'.
Proof.
  intros [Hp Hf] H K. destruct te as [t e]. simpl in K. step_cases H; cbn in K.
  - destruct (posting c) eqn:P; [|discriminate H].
    destruct (Hp eq_refl) as [Hi _]. injection H as <-.
    destruct r; [congruence|]. split; cbn; auto.
  - congruence.
  - destruct (polls_in_flight c) as [|n] eqn:Q; [discriminate H|].
    injection H as <-.
    assert (P : posting c = false).
    { destruct (posting c); [|reflexivity]. destruct (Hp eq_refl) as [_ [_ [? _]]].
      discriminate. }
    unfold on_jobs_settled. destruct r as [d|d].
    + destruct (String.eqb (status d) "completed") eqn:E1; [congruence|].
      destruct (String.eqb (status d) "failed") eqn:E2; [|congruence].
      split; cbn; auto.
    + split; cbn; auto.
  - destruct (fetches_in_flight c) as [|n] eqn:F; [discriminate H|].
    injection H as <-.
    assert (P : posting c = false).
    { destruct (posting c); [|reflexivity]. destruct (Hp eq_refl) as [_ [_ [_ ?]]].
      discriminate. }
    assert (I : pollInterval c = None) by (apply Hf; lia).
    destruct r; split; cbn; auto.
  - destruct (timeoutTimer c) as [due|] eqn:T; [|discriminate H].
    destruct (t =? due); [|discriminate H]. injection H as <-.
    assert (P : posting c = false).
    { destruct (posting c); [|reflexivity]. destruct (Hp eq_refl) as [_ [? _]].
      discriminate. }
    unfold on_timeout. cbn. destruct (captured_isGenerating c); [|congruence].
    split; cbn; auto.
Qed.

Lemma status_queries_emit (es : list Effect) (c : Controller) :
  status_queries (log (emit es c)) = (status_queries (log c) ++ status_queries es)%list.
Proof.
  unfold status_queries. cbn. apply filter_app.
Qed.

(** Once the interval is stopped it stays so: the interval callback cannot
    start, and no handler sends a status query. *)
Lemma step_interval_stopped (c c' : Controller) (te : Z * Event) :
  interval_stopped c -> step c te = Some c' ->
  interval_stopped c'
  /\ status_queries (log c') = status_queries (log c)
  /\ snd te <> interval_fires.
Proof.
  intros [P I] H. destruct te as [t e]. step_cases H.
  - rewrite P in H. discriminate H.
  - rewrite I in H. discriminate H.
  - destruct (polls_in_flight c) as [|n]; [discriminate H|]. injection H as <-.
    unfold on_jobs_settled. destruct r as [d|d].
    + destruct (String.eqb (status d) "completed");
        [|destruct (String.eqb (status d) "failed")];
        rewrite ?status_queries_emit; cbn; rewrite ?app_nil_r;
        (split; [split; auto | split; [reflexivity | discriminate]]).
    + rewrite status_queries_emit; cbn; rewrite app_nil_r.
      split; [split; auto | split; [reflexivity | discriminate]].
  - destruct (fetches_in_flight c) as [|n]; [discriminate H|]. injection H as <-.
    destruct r; cbn [on_assets_settled]; rewrite status_queries_emit; cbn;
      rewrite app_nil_r; (split; [split; auto | split; [reflexivity | discriminate]]).
  - destruct (timeoutTimer c) as [due|]; [|discriminate H].
    destruct (t =? due); [|discriminate H]. injection H as <-.
    unfold on_timeout. cbn. destruct (captured_isGenerating c);
      rewrite ?status_queries_emit; cbn; rewrite ?app_nil_r;
      (split; [split; auto | split; [reflexivity | discriminate]]).
Qed.

Lemma run_interval_stopped (events : list (Z * Event)) (c c' : Controller) :
  interval_stopped c -> run c events = Some c' ->
  interval_stopped c'
  /\ status_queries (log c') = status_queries (log c)
  /\ (forall te, In te events -> snd te <> interval_fires).
Proof.
  revert c. induction events as [|te events IH]; intros c Hc H; simpl in H.
  - injection H as <-. repeat split; try apply Hc. intros te [].
  - destruct (step c te) as [c1|] eqn:S; [|discriminate].
    destruct (step_interval_stopped _ _ _ Hc S) as [Hc1 [Hq Hte]].
    destruct (IH _ Hc1 H) as [Hc' [Hq' Hall]].
    repeat split; try apply Hc'.
    + now rewrite Hq'.
    + intros te' [<-|Hin]; [exact Hte | now apply Hall].
Qed.

(** C2, amended: in a run of the controller, after an event whose handling
    records a terminal state (completed, failed or timed out), the interval
    is cleared and stays so, the interval callback never starts again, and no
    further status query is sent.  (Answers to the status queries sent before
    are still handled when they arrive.) *)
Theorem no_status_query_after_terminal
  (now : Z) (p : Page.t) (before : list (Z * Event)) (te : Z * Event)
  (after : list (Z * Event)) (c1 c2 c3 : Controller) :
  run (handleGenerate now p) before = Some c1 ->
  step c1 te = Some c2 ->
  classification c1 (snd te) <> None ->
  run c2 after = Some c3 ->
  pollInterval c3 = None
  /\ status_queries (log c3) = status_queries (log c2)
  /\ (forall te', In te' after -> snd te' <> interval_fires).
Proof.
  intros H1 H2 K H3.
  assert (Hc1 : coherent c1)
    by (eapply run_coherent; [apply handleGenerate_coherent | exact H1]).
  pose proof (terminal_stops_interval _ _ _ Hc1 H2 K) as Hs.
  destruct (run_interval_stopped _ _ _ Hs H3) as [[_ I] [Q N]].
  repeat split; assumption.
Qed.

Lemma no_status_query_after_terminal_witness :
  exists c3,
    run (handleGenerate 0 uploaded_page) overlapping_polls = Some c3
    /\ pollInterval c3 = None.
Proof.
  eexists. split; [vm_compute; reflexivity|].
  eapply (no_status_query_after_terminal 0 uploaded_page
            (firstn 3 overlapping_polls)
            (6100, jobs_settled (resolved {| status := "failed"; error := None |}))
            (skipn 4 overlapping_polls)).
  - vm_compute. reflexivity.
  - vm_compute. reflexivity.
  - discriminate.
  - vm_compute. reflexivity.
Defined.

(** *** The timeout in every run started from the button *)

Lemma step_captured (c c' : Controller) (te : Z * Event) :
  step c te = Some c' -> captured_isGenerating c' = captured_isGenerating c.
Proof.
  intros H. destruct te as [t e]. step_cases H.
  - destruct (posting c); [|discriminate H]. injection H as <-. now destruct r.
  - destruct (pollInterval c) as [due|]; [|discriminate H].
    destruct (t =? due); [|discriminate H]. now injection H as <-.
  - destruct (polls_in_flight c) as [|n]; [discriminate H|]. injection H as <-.
    unfold on_jobs_settled. destruct r as [d|d]; [|reflexivity].
    destruct (String.eqb (status d) "completed"); [reflexivity|].
    destruct (String.eqb (status d) "failed"); reflexivity.
  - destruct (fetches_in_flight c) as [|n]; [discriminate H|]. injection H as <-.
    now destruct r.
  - destruct (timeoutTimer c) as [due|]; [|discriminate H].
    destruct (t =? due); [|discriminate H]. injection H as <-.
    unfold on_timeout. cbn. destruct (captured_isGenerating c) eqn:E; cbn; exact E.
Qed.

Lemma run_captured (events : list (Z * Event)) (c c' : Controller) :
  run c events = Some c' -> captured_isGenerating c' = captured_isGenerating c.
Proof.
  revert c. induction events as [|te events IH]; intros c H; simpl in H.
  - now injection H as <-.
  - destruct (step c te) as [c1|] eqn:S; [|discriminate].
    rewrite (IH _ H). eapply step_captured, S.
Qed.

(** In every run that a click on the enabled Generate button starts, the
    timeout callback, whenever it runs, changes neither the page state nor
    the log: it never sets [isGenerating] to [false] and never notifies. *)
Lemma timeout_never_reported
  (now : Z) (p : Page.t) (events : list (Z * Event)) (t : Z) (c c' : Controller) :
  generate_button_disabled p = false ->
  run (handleGenerate now p) events = Some c ->
  step c (t, timeout_fires) = Some c' ->
  page c' = page c /\ log c' = log c /\ pollInterval c' = None.
Proof.
  intros Hb Hr Hs.
  assert (Hcap : captured_isGenerating c = false).
  { rewrite (run_captured _ _ _ Hr). now apply clicked_closure_not_generating. }
  unfold step in Hs.
  destruct ((clock c <=? t) && not_overdue t (pollInterval c)
            && not_overdue t (timeoutTimer c)); [|discriminate Hs].
  cbn in Hs.
  destruct (timeoutTimer c) as [due|]; [|discriminate Hs].
  destruct (t =? due); [|discriminate Hs]. injection Hs as <-.
  unfold on_timeout. cbn. rewrite Hcap. repeat split.
Qed.

(** * Further properties of the code *)

(** ** Registry operations *)

Lemma includes_toggled (formats : list string) (format g : string) :
  includes (toggled formats format) g
  = if String.eqb g format then negb (includes formats format) else includes formats g.
Proof.
  unfold toggled. destruct (includes formats format) eqn:E.
  - destruct (String.eqb_spec g format) as [->|Hne]; simpl.
    + apply includes_false. rewrite filter_In. intros [_ H].
      rewrite String.eqb_refl in H. discriminate.
    + destruct (includes formats g) eqn:G.
      * apply includes_true. apply includes_true in G. apply filter_In.
        split; [assumption|]. apply Bool.negb_true_iff. now apply String.eqb_neq.
      * apply includes_false. apply includes_false in G. rewrite filter_In.
        intros [H _]. contradiction.
  - destruct (String.eqb_spec g format) as [->|Hne]; simpl.
    + apply includes_true. rewrite in_app_iff. right. now left.
    + destruct (includes formats g) eqn:G.
      * apply includes_true. apply includes_true in G. rewrite in_app_iff. now left.
      * apply includes_false. apply includes_false in G. rewrite in_app_iff.
        intros [H|[H|[]]]; [contradiction | congruence].
Qed.

(** X1: [toggleFormat] is a symmetric difference with one format: in the entries
    of the given id the membership of that format is negated and the
    membership of every other format is kept; the other entries are
    unchanged. *)
Theorem toggleFormat_flips_one_membership
  (outputId format : string) (outputs : list Output.t) :
  Forall2
    (fun o o' =>
       if String.eqb (Output.id o) outputId
       then forall g,
              includes (Output.formats o') g
              = if String.eqb g format
                then negb (includes (Output.formats o) format)
                else includes (Output.formats o) g
       else o' = o)
    outputs (toggleFormat outputId format outputs).
Proof.
  unfold toggleFormat. apply Forall2_map_right. intros o _.
  destruct (String.eqb (Output.id o) outputId); [|reflexivity].
  intros g. simpl. apply includes_toggled.
Qed.

Lemma NoDup_filter_string (p : string -> bool) (l : list string) :
  NoDup l -> NoDup (filter p l).
Proof.
  induction 1 as [|x l Hx _ IH]; simpl; [constructor|].
  destruct (p x); [|assumption]. constructor; [|assumption].
  rewrite filter_In. intros [H _]. contradiction.
Qed.

Lemma toggled_NoDup (formats : list string) (format : string) :
  NoDup formats -> NoDup (toggled formats format).
Proof.
  intros H. unfold toggled. destruct (includes formats format) eqn:E.
  - now apply NoDup_filter_string.
  - apply includes_false in E. clear -H E.
    induction H as [|x l Hx _ IH]; simpl.
    + constructor; [intros [] | constructor].
    + constructor.
      * rewrite in_app_iff. intros [Hin|[->|[]]]; [contradiction|].
        apply E. now left.
      * apply IH. intros Hin. apply E. now right.
Qed.

(** A property of entries that no update of a field can break is kept by
    the whole panel when adding and toggling keep it. *)
Lemma panel_run_Forall (P : Output.t -> Prop) :
  (forall a o, P o -> P (assign a o)) ->
  (forall format o, P o -> P (with_formats (toggled (Output.formats o) format) o)) ->
  (forall now type outputs outputs',
      addOutput now type outputs = Some outputs' -> Forall P outputs -> Forall P outputs') ->
  forall events outputs, Forall P outputs -> Forall P (panel_run outputs events).
Proof.
  intros Ha Ht Hadd. induction events as [|e events IH]; intros outputs H; simpl;
    [assumption|].
  apply IH.
  assert (Hu : forall id a, Forall P (updateOutput id a outputs)).
  { intros id a. unfold updateOutput. apply Forall_map.
    eapply Forall_impl; [|exact H]. intros o Ho.
    destruct (String.eqb (Output.id o) id); auto. }
  destruct e; simpl; try apply Hu.
  - destruct (addOutput now type outputs) as [outputs'|] eqn:E; [|assumption].
    eapply Hadd; eassumption.
  - unfold toggleFormat. apply Forall_map.
    eapply Forall_impl; [|exact H]. intros o Ho.
    destruct (String.eqb (Output.id o) id); auto.
  - destruct (remove_button_rendered outputs); [|assumption].
    unfold removeOutput. apply Forall_forall. intros o Ho.
    apply filter_In in Ho. destruct Ho as [Ho _].
    rewrite Forall_forall in H. now apply H.
Qed.

Lemma addOutput_inv (now : Z) (type : string) (outputs outputs' : list Output.t) :
  addOutput now type outputs = Some outputs' ->
  exists t,
    In t OUTPUT_TYPES /\ ot_id t = type
    /\ outputs' =
       (outputs ++
        [Output.mk (type ++ "_" ++ number_to_string now) type true "English"
           (defaultWidth t) (defaultHeight t) ["png"; "jpeg"; "pdf"]
           (String.eqb type "poster")])%list.
Proof.
  unfold addOutput.
  destruct (find (fun t => String.eqb (ot_id t) type) OUTPUT_TYPES) as [t|] eqn:F;
    [|discriminate].
  intros [= <-]. apply find_some in F. destruct F as [Hin E].
  apply String.eqb_eq in E. exists t. repeat split; assumption.
Qed.

(** X2: whatever the user does in the panel, starting from the page's initial
    registry, no [formats] array ever holds a format twice. *)
Theorem formats_never_duplicated (events : list PanelEvent) :
  Forall (fun o => NoDup (Output.formats o)) (panel_run initial_outputs events).
Proof.
  apply panel_run_Forall.
  - intros a o H. now destruct a.
  - intros format o H. simpl. now apply toggled_NoDup.
  - intros now type outputs outputs' E H.
    destruct (addOutput_inv _ _ _ _ E) as [t [_ [_ ->]]].
    apply Forall_app. split; [assumption|]. constructor; [|constructor].
    simpl. repeat constructor; simpl; intuition discriminate.
  - constructor; [|constructor]. simpl.
    repeat constructor; simpl; intuition discriminate.
Qed.

(** X3: whatever the user does in the panel, starting from the page's initial
    registry, every entry has one of the known types, so the lookup of its
    label by the render succeeds. *)
Theorem labels_always_found (events : list PanelEvent) :
  Forall (fun o => exists l, output_label o = Some l) (panel_run initial_outputs events).
Proof.
  assert (K : forall o, In (Output.type o) known_types -> exists l, output_label o = Some l).
  { intros o H. unfold output_label.
    destruct (find (fun t => String.eqb (ot_id t) (Output.type o)) OUTPUT_TYPES) as [t|] eqn:F.
    - eexists. reflexivity.
    - exfalso. unfold known_types in H. apply in_map_iff in H.
      destruct H as [t [E Hin]].
      apply (find_none _ _ F) in Hin. rewrite E, String.eqb_refl in Hin. discriminate. }
  eapply Forall_impl; [exact K|].
  apply panel_run_Forall.
  - intros a o H. now destruct a.
  - intros format o H. exact H.
  - intros now type outputs outputs' E H.
    destruct (addOutput_inv _ _ _ _ E) as [t [Hin [Ht ->]]].
    apply Forall_app. split; [assumption|]. constructor; [|constructor].
    cbn [Output.type]. unfold known_types. apply in_map_iff. exists t. now split.
  - constructor; [|constructor]. simpl. now left.
Qed.

(** *** Ids *)

Lemma number_to_string_inj (n m : Z) :
  number_to_string n = number_to_string m -> n = m.
Proof.
  unfold number_to_string. intros H. apply DecimalZ.to_int_inj.
  assert (R : forall z, NilZero.int_of_string (NilZero.string_of_int (Z.to_int z))
                        = Some (Z.to_int z)).
  { intros z. apply NilZero.isi; destruct z; simpl; try discriminate;
      intros [= E]; now apply Unsigned.to_uint_nonnil in E. }
  pose proof (R n) as Rn. rewrite H, R in Rn. now injection Rn.
Qed.

(** The id that [addOutput] builds determines the type and the clock
    reading, and is never the id of the initial poster. *)
Lemma added_id_inj (type type' : string) (now now' : Z) :
  In type known_types -> In type' known_types ->
  type ++ "_" ++ number_to_string now = type' ++ "_" ++ number_to_string now' ->
  type = type' /\ now = now'.
Proof.
  unfold known_types. simpl.
  intros [<-|[<-|[<-|[<-|[<-|[]]]]]] [<-|[<-|[<-|[<-|[<-|[]]]]]] H;
    simpl in H; try discriminate H;
    (split; [reflexivity|]); injection H as H; now apply number_to_string_inj.
Qed.

Lemma added_id_not_poster (type : string) (now : Z) :
  In type known_types -> type ++ "_" ++ number_to_string now <> "poster".
Proof.
  unfold known_types. simpl.
  intros [<-|[<-|[<-|[<-|[<-|[]]]]]]; simpl; discriminate.
Qed.

Lemma ids_from_more (used used' : list (string * Z)) (outputs : list Output.t) :
  (forall r, In r used -> In r used') -> ids_from used outputs -> ids_from used' outputs.
Proof.
  intros Hsub [Hnd H]. split; [assumption|].
  eapply Forall_impl; [|exact H]. intros o [E|[type [now [Hin [Hk E]]]]].
  - now left.
  - right. exists type, now. repeat split; auto.
Qed.

Lemma map_id_updateOutput (id : string) (a : Assignment) (outputs : list Output.t) :
  map Output.id (updateOutput id a outputs) = map Output.id outputs.
Proof.
  unfold updateOutput. rewrite map_map. apply map_ext. intros o.
  destruct (String.eqb (Output.id o) id); [now destruct a | reflexivity].
Qed.

Lemma map_id_toggleFormat (id format : string) (outputs : list Output.t) :
  map Output.id (toggleFormat id format outputs) = map Output.id outputs.
Proof.
  unfold toggleFormat. rewrite map_map. apply map_ext. intros o.
  now destruct (String.eqb (Output.id o) id).
Qed.

Lemma ids_from_map (used : list (string * Z)) (g : Output.t -> Output.t)
  (outputs : list Output.t) :
  (forall o, Output.id (g o) = Output.id o) ->
  ids_from used outputs -> ids_from used (map g outputs).
Proof.
  intros Hg [Hnd H]. split.
  - rewrite map_map. erewrite map_ext; [exact Hnd|]. exact Hg.
  - apply Forall_map. eapply Forall_impl; [|exact H].
    intros o Ho. cbv beta. now rewrite Hg.
Qed.

Lemma ids_from_step (used : list (string * Z)) (outputs : list Output.t) (e : PanelEvent) :
  (forall r, In r (add_readings [e]) -> ~ In r used) ->
  ids_from used outputs ->
  ids_from (used ++ add_readings [e]) (panel_step outputs e).
Proof.
  intros Hfresh Hi.
  assert (Hmore : ids_from (used ++ add_readings [e]) outputs).
  { eapply ids_from_more; [|exact Hi]. intros r Hr. apply in_app_iff. now left. }
  assert (Hu : forall id a, ids_from (used ++ add_readings [e]) (updateOutput id a outputs)).
  { intros id a. apply ids_from_map; [|exact Hmore]. intros o.
    destruct (String.eqb (Output.id o) id); [now destruct a | reflexivity]. }
  destruct e; try apply Hu.
  - cbn [panel_step].
    destruct (addOutput now type outputs) as [outputs'|] eqn:E; [|exact Hmore].
    destruct (addOutput_inv _ _ _ _ E) as [t [Hin [Ht ->]]].
    assert (Hk : In type known_types).
    { unfold known_types. apply in_map_iff. exists t. now split. }
    destruct Hmore as [Hnd H]. destruct Hi as [_ Hold]. split.
    + rewrite map_app. apply NoDup_app; [assumption | |].
      * simpl. constructor; [intros [] | constructor].
      * intros i Hi [<-|[]]. apply in_map_iff in Hi. destruct Hi as [o [Eo Ho]].
        rewrite Forall_forall in Hold. destruct (Hold o Ho) as [P|[ty [n [Hused [Hty En]]]]].
        -- apply (added_id_not_poster type now Hk). cbn [Output.id] in Eo. congruence.
        -- cbn [Output.id] in Eo. rewrite En in Eo.
           destruct (added_id_inj _ _ _ _ Hty Hk Eo) as [-> ->].
           apply (Hfresh (type, now)); [now left | assumption].
    + apply Forall_app. split; [assumption|]. constructor; [|constructor].
      right. exists type, now. repeat split; [|assumption].
      apply in_app_iff. right. now left.
  - apply ids_from_map; [|exact Hmore]. intros o.
    now destruct (String.eqb (Output.id o) id).
  - cbn [panel_step]. destruct (remove_button_rendered outputs); [|exact Hmore].
    destruct Hmore as [Hnd H]. split.
    + now apply removeOutput_ids_NoDup.
    + unfold removeOutput. apply Forall_forall. intros o Ho.
      apply filter_In in Ho. destruct Ho as [Ho _].
      rewrite Forall_forall in H. now apply H.
Qed.

(** With distinct ids the panel's remove leaves an entry, and no other
    operation removes one. *)
Lemma panel_step_keeps_an_entry (outputs : list Output.t) (e : PanelEvent) :
  NoDup (map Output.id outputs) -> outputs <> [] -> panel_step outputs e <> [].
Proof.
  intros Hnd Hne.
  assert (Hmap : forall g : Output.t -> Output.t, map g outputs <> []).
  { intros g. destruct outputs; [contradiction | discriminate]. }
  destruct e; simpl; try apply Hmap.
  - destruct (addOutput now type outputs) as [outputs'|] eqn:E; [|assumption].
    destruct (addOutput_inv _ _ _ _ E) as [t [_ [_ ->]]].
    intros H. apply app_eq_nil in H. destruct H as [_ H]. discriminate.
  - unfold remove_button_rendered. destruct outputs as [|a [|b rest]].
    + contradiction.
    + simpl. discriminate.
    + change (1 <? List.length (a :: b :: rest))%nat with true. cbv iota.
      unfold removeOutput. simpl.
      destruct (String.eqb_spec (Output.id a) id) as [Ea|Ea]; simpl; [|discriminate].
      destruct (String.eqb_spec (Output.id b) id) as [Eb|Eb]; simpl; [|discriminate].
      exfalso. simpl in Hnd. inversion Hnd as [|x l Hnotin _]; subst.
      apply Hnotin. left. congruence.
Qed.

Lemma add_readings_cons (e : PanelEvent) (events : list PanelEvent) :
  add_readings (e :: events) = (add_readings [e] ++ add_readings events)%list.
Proof.
  destruct e; reflexivity.
Qed.

Lemma panel_run_ids (events : list PanelEvent) :
  forall used outputs,
    NoDup (used ++ add_readings events) ->
    ids_from used outputs -> outputs <> [] ->
    NoDup (map Output.id (panel_run outputs events)) /\ panel_run outputs events <> [].
Proof.
  induction events as [|e events IH]; intros used outputs Hnd Hi Hne; simpl.
  - split; [apply Hi | assumption].
  - rewrite add_readings_cons, app_assoc in Hnd.
    apply (IH (used ++ add_readings [e])%list).
    + exact Hnd.
    + apply ids_from_step; [|exact Hi].
      apply NoDup_app_remove_r in Hnd.
      intros r Hr Hu. destruct e; try contradiction.
      simpl in Hr. destruct Hr as [<-|[]].
      apply NoDup_remove_2 in Hnd. apply Hnd. rewrite app_nil_r. exact Hu.
    + apply panel_step_keeps_an_entry; [apply Hi | assumption].
Qed.

Lemma initial_ids : ids_from [] initial_outputs.
Proof.
  split.
  - simpl. constructor; [intros [] | constructor].
  - constructor; [now left | constructor].
Qed.

(** X4: when no two adds of the same type read the same millisecond from
    [Date.now()], the ids of the registry stay pairwise distinct, whatever
    else the user does in the panel. *)
Theorem ids_distinct_with_distinct_readings (events : list PanelEvent) :
  NoDup (add_readings events) ->
  NoDup (map Output.id (panel_run initial_outputs events)).
Proof.
  intros H. apply (panel_run_ids events [] initial_outputs); try assumption.
  - apply initial_ids.
  - discriminate.
Qed.

Lemma ids_distinct_with_distinct_readings_witness :
  NoDup (map Output.id
           (panel_run initial_outputs
              [SelectAddOutput "banner" 1700000000000;
               SelectAddOutput "poster" 1700000000000;
               SelectAddOutput "banner" 1700000000001;
               ClickRemove "poster"])).
Proof.
  apply ids_distinct_with_distinct_readings.
  simpl. repeat constructor; simpl; intuition discriminate.
Defined.

(** X5: under the same condition the registry is never empty: from the initial
    registry no sequence of panel operations removes the last entry. *)
Theorem registry_never_empty_with_distinct_readings (events : list PanelEvent) :
  NoDup (add_readings events) ->
  panel_run initial_outputs events <> [].
Proof.
  intros H. apply (panel_run_ids events [] initial_outputs); try assumption.
  - apply initial_ids.
  - discriminate.
Qed.

Lemma registry_never_empty_with_distinct_readings_witness :
  panel_run initial_outputs
    [SelectAddOutput "banner" 1700000000000;
     ClickRemove "poster";
     ClickRemove "banner_1700000000000"] <> [].
Proof.
  apply registry_never_empty_with_distinct_readings.
  simpl. repeat constructor; simpl; intuition discriminate.
Defined.

(** *** Formats *)

Lemma toggled_incl (formats : list string) (format : string) :
  In format FORMATS -> incl formats FORMATS -> incl (toggled formats format) FORMATS.
Proof.
  intros Hf H x Hx. unfold toggled in Hx.
  destruct (includes formats format).
  - apply filter_In in Hx. apply H, Hx.
  - apply in_app_iff in Hx. destruct Hx as [Hx|[<-|[]]]; [now apply H | assumption].
Qed.

Lemma panel_step_formats (outputs : list Output.t) (e : PanelEvent) :
  checks_known_format e ->
  Forall formats_well_formed outputs ->
  Forall formats_well_formed (panel_step outputs e).
Proof.
  intros He H.
  assert (Hu : forall id a, Forall formats_well_formed (updateOutput id a outputs)).
  { intros id a. unfold updateOutput. apply Forall_map.
    eapply Forall_impl; [|exact H]. intros o Ho.
    destruct (String.eqb (Output.id o) id); [now destruct a | assumption]. }
  destruct e; simpl in *; try apply Hu.
  - destruct (addOutput now type outputs) as [outputs'|] eqn:E; [|assumption].
    destruct (addOutput_inv _ _ _ _ E) as [t [_ [_ ->]]].
    apply Forall_app. split; [assumption|]. constructor; [|constructor].
    split; simpl.
    + repeat constructor; simpl; intuition discriminate.
    + intros x [<-|[<-|[<-|[]]]]; simpl; auto.
  - unfold toggleFormat. apply Forall_map.
    eapply Forall_impl; [|exact H]. intros o [Hnd Hin].
    destruct (String.eqb (Output.id o) id); [|now split].
    split; simpl; [now apply toggled_NoDup | now apply toggled_incl].
  - destruct (remove_button_rendered outputs); [|assumption].
    unfold removeOutput. apply Forall_forall. intros o Ho.
    apply filter_In in Ho. destruct Ho as [Ho _].
    rewrite Forall_forall in H. now apply H.
Qed.

(** X6: when every format checkbox event names one of [FORMATS] (the panel
    renders no other checkbox), every [formats] array of the registry is a
    repetition-free selection of [FORMATS], so it holds at most four
    formats. *)
Theorem formats_within_FORMATS (events : list PanelEvent) :
  Forall checks_known_format events ->
  Forall
    (fun o => incl (Output.formats o) FORMATS /\ (List.length (Output.formats o) <= 4)%nat)
    (panel_run initial_outputs events).
Proof.
  intros He.
  assert (H : Forall formats_well_formed (panel_run initial_outputs events)).
  { assert (H0 : Forall formats_well_formed initial_outputs).
    { constructor; [|constructor]. split; simpl.
      - repeat constructor; simpl; intuition discriminate.
      - intros x [<-|[<-|[<-|[]]]]; simpl; auto. }
    revert H0. generalize initial_outputs.
    induction He as [|e events He _ IH]; intros outputs H0; simpl; [assumption|].
    apply IH. now apply panel_step_formats. }
  eapply Forall_impl; [|exact H]. intros o [Hnd Hin]. split; [assumption|].
  change 4%nat with (List.length FORMATS). now apply NoDup_incl_length.
Qed.

Lemma formats_within_FORMATS_witness :
  Forall
    (fun o => incl (Output.formats o) FORMATS /\ (List.length (Output.formats o) <= 4)%nat)
    (panel_run initial_outputs
       [CheckFormat "poster" "svg"; CheckFormat "poster" "png"; CheckFormat "poster" "png"]).
Proof.
  apply formats_within_FORMATS.
  repeat (apply Forall_cons; [simpl; auto 10|]). apply Forall_nil.
Defined.

(** *** How the operations compose *)

(** X7: adding an output and then removing it by its id gives the registry
    back, when no entry already had that id. *)
Theorem add_then_remove
  (now : Z) (type : string) (outputs outputs' : list Output.t) :
  addOutput now type outputs = Some outputs' ->
  (forall o, In o outputs -> Output.id o <> type ++ "_" ++ number_to_string now) ->
  removeOutput (type ++ "_" ++ number_to_string now) outputs' = outputs.
Proof.
  intros E Hfresh. destruct (addOutput_inv _ _ _ _ E) as [t [_ [_ ->]]].
  pose proof (removeOutput_absent _ _ Hfresh) as R.
  remember (type ++ "_" ++ number_to_string now) as i eqn:Ei.
  unfold removeOutput in *. rewrite filter_app, R.
  cbn [filter Output.id]. rewrite String.eqb_refl. apply app_nil_r.
Qed.

Lemma add_then_remove_witness :
  removeOutput ("banner" ++ "_" ++ number_to_string 1700000000000)
    (initial_outputs ++
     [Output.mk "banner_1700000000000" "banner" true "English" 1920 600
        ["png"; "jpeg"; "pdf"] false])%list
  = initial_outputs.
Proof.
  apply (add_then_remove 1700000000000 "banner" initial_outputs).
  - reflexivity.
  - intros o [<-|[]]. discriminate.
Defined.

(** X8: two updates of the same field of the same id: the last one wins (and an
    update applied twice is the update applied once). *)
Theorem update_last_write_wins
  (id : string) (a1 a2 : Assignment) (outputs : list Output.t) :
  field_of a1 = field_of a2 ->
  updateOutput id a2 (updateOutput id a1 outputs) = updateOutput id a2 outputs.
Proof.
  intros Hf. unfold updateOutput. rewrite map_map. apply map_ext. intros o.
  destruct (String.eqb (Output.id o) id) eqn:E; [|now rewrite E].
  assert (E' : String.eqb (Output.id (assign a1 o)) id = true) by now destruct a1.
  rewrite E'. destruct a1, a2; simpl in Hf; try discriminate Hf; reflexivity.
Qed.

Lemma update_last_write_wins_witness :
  updateOutput "poster" (Width 800) (updateOutput "poster" (Width 0) initial_outputs)
  = updateOutput "poster" (Width 800) initial_outputs.
Proof.
  apply update_last_write_wins. reflexivity.
Defined.

(** X9: operations on two different ids commute: updates with updates, updates
    with format toggles, and format toggles with format toggles. *)
Theorem operations_on_different_ids_commute
  (id1 id2 : string) (a b : Assignment) (f g : string) (outputs : list Output.t) :
  id1 <> id2 ->
  updateOutput id1 a (updateOutput id2 b outputs)
  = updateOutput id2 b (updateOutput id1 a outputs)
  /\ updateOutput id1 a (toggleFormat id2 g outputs)
     = toggleFormat id2 g (updateOutput id1 a outputs)
  /\ toggleFormat id1 f (toggleFormat id2 g outputs)
     = toggleFormat id2 g (toggleFormat id1 f outputs).
Proof.
  intros Hne.
  assert (X : forall o, String.eqb (Output.id o) id1 = true ->
                        String.eqb (Output.id o) id2 = false).
  { intros o E. apply String.eqb_eq in E. apply String.eqb_neq. congruence. }
  unfold updateOutput, toggleFormat. rewrite !map_map.
  repeat split; apply map_ext; intros o;
    destruct (String.eqb (Output.id o) id1) eqn:E1;
    destruct (String.eqb (Output.id o) id2) eqn:E2;
    try (rewrite (X o E1) in E2; discriminate E2);
    rewrite ?E1, ?E2;
    try (destruct a; cbn [assign Output.id]; rewrite ?E1, ?E2; reflexivity);
    try (destruct b; cbn [assign Output.id]; rewrite ?E1, ?E2; reflexivity);
    cbn [with_formats Output.id]; rewrite ?E1, ?E2; try reflexivity.
Qed.

Lemma operations_on_different_ids_commute_witness :
  updateOutput "a" (Width 1) (updateOutput "poster" (Height 2) initial_outputs)
  = updateOutput "poster" (Height 2) (updateOutput "a" (Width 1) initial_outputs).
Proof.
  apply (operations_on_different_ids_commute "a" "poster" (Width 1) (Height 2) "png" "png").
  discriminate.
Defined.


(** ** The controller, in every run *)

Lemma step_guard (c c' : Controller) (t : Z) (e : Event) :
  step c (t, e) = Some c' ->
  clock c <= t
  /\ not_overdue t (pollInterval c) = true
  /\ not_overdue t (timeoutTimer c) = true.
Proof.
  unfold step.
  destruct (clock c <=? t) eqn:C; [|discriminate].
  destruct (not_overdue t (pollInterval c)); [|discriminate].
  destruct (not_overdue t (timeoutTimer c)); [|discriminate].
  intros _. apply Z.leb_le in C. auto.
Qed.

(** What a step adds to the log: notifications, console lines, and status
    queries and asset fetches for the job id of the closure. *)
Lemma step_log (c c' : Controller) (te : Z * Event) :
  step c te = Some c' ->
  captured_jobId c' = captured_jobId c
  /\ exists es,
       log c' = (log c ++ es)%list
       /\ Forall (fun e => is_generate_post e = false /\ names_job (captured_jobId c) e) es
       /\ List.length (filter is_assets_fetch es)
          = (if answers_completed te then 1 else 0)%nat.
Proof.
  intros H. destruct te as [t e]. unfold answers_completed. cbn [snd]. step_cases H.
  - destruct (posting c); [|discriminate H]. injection H as <-.
    destruct r; (split; [reflexivity|]); eexists; (split; [reflexivity|]);
      split; try reflexivity; repeat constructor.
  - destruct (pollInterval c) as [due|]; [|discriminate H].
    destruct (t =? due); [|discriminate H]. injection H as <-.
    split; [reflexivity|]. eexists. split; [reflexivity|].
    split; try reflexivity; repeat constructor.
  - destruct (polls_in_flight c) as [|n]; [discriminate H|]. injection H as <-.
    unfold on_jobs_settled. destruct r as [d|d].
    + destruct (String.eqb (status d) "completed").
      * split; [reflexivity|]. eexists. split; [reflexivity|].
        split; try reflexivity; repeat constructor.
      * destruct (String.eqb (status d) "failed").
        -- split; [reflexivity|]. eexists. split; [reflexivity|].
           split; try reflexivity; repeat constructor.
        -- split; [reflexivity|]. exists []. split; [cbn; now rewrite app_nil_r|].
           split; [constructor | reflexivity].
    + split; [reflexivity|]. eexists. split; [reflexivity|].
      split; try reflexivity; repeat constructor.
  - destruct (fetches_in_flight c) as [|n]; [discriminate H|]. injection H as <-.
    destruct r; (split; [reflexivity|]); eexists; (split; [reflexivity|]);
      split; try reflexivity; repeat constructor.
  - destruct (timeoutTimer c) as [due|]; [|discriminate H].
    destruct (t =? due); [|discriminate H]. injection H as <-.
    unfold on_timeout. cbn. destruct (captured_isGenerating c).
    + split; [reflexivity|]. eexists. split; [reflexivity|].
      split; try reflexivity; repeat constructor.
    + split; [reflexivity|]. exists []. split; [cbn; now rewrite app_nil_r|].
      split; [constructor | reflexivity].
Qed.

Lemma run_log (events : list (Z * Event)) (c c' : Controller) :
  run c events = Some c' ->
  captured_jobId c' = captured_jobId c
  /\ exists es,
       log c' = (log c ++ es)%list
       /\ Forall (fun e => is_generate_post e = false /\ names_job (captured_jobId c) e) es
       /\ List.length (filter is_assets_fetch es)
          = List.length (filter answers_completed events).
Proof.
  revert c. induction events as [|te events IH]; intros c H; simpl in H.
  - injection H as <-. split; [reflexivity|]. exists [].
    split; [now rewrite app_nil_r|]. split; [constructor | reflexivity].
  - destruct (step c te) as [c1|] eqn:S; [|discriminate].
    destruct (step_log _ _ _ S) as [J1 [es1 [L1 [F1 N1]]]].
    destruct (IH _ H) as [J2 [es2 [L2 [F2 N2]]]].
    split; [congruence|]. exists (es1 ++ es2)%list. split; [|split].
    + rewrite L2, L1. now rewrite app_assoc.
    + apply Forall_app. split; [assumption|]. now rewrite <- J1.
    + rewrite filter_app, length_app, N1, N2. cbn [filter].
      destruct (answers_completed te); reflexivity.
Qed.

Lemma enabledCount_zero (outputs : list Output.t) :
  (enabledCount outputs =? 0)%nat
  = (List.length (filter Output.enabled outputs) =? 0)%nat.
Proof. reflexivity. Qed.

(** X11: a click on the enabled Generate button always submits: one POST, for
    the page's job id, with as many outputs as the button announces; the page
    is then generating with an empty store, which disables the button. *)
Theorem click_submits_once (now : Z) (p : Page.t) :
  generate_button_disabled p = false ->
  exists j request,
    Page.jobId p = Some j
    /\ log (handleGenerate now p) = [axios_post_generate request]
    /\ Request.job_id request = j
    /\ List.length (Request.outputs request) = enabledCount (Page.outputs p)
    /\ posting (handleGenerate now p) = true
    /\ Page.isGenerating (page (handleGenerate now p)) = true
    /\ Page.generatedAssets (page (handleGenerate now p)) = []
    /\ generate_button_disabled (page (handleGenerate now p)) = true.
Proof.
  unfold generate_button_disabled. intros H.
  apply Bool.orb_false_iff in H. destruct H as [H _].
  apply Bool.orb_false_iff in H. destruct H as [Hj Hn].
  unfold handleGenerate. rewrite Hj. rewrite enabledCount_zero in Hn. rewrite Hn.
  destruct (Page.jobId p) as [[|a j]|] eqn:J; try discriminate Hj.
  exists (String a j). eexists. split; [reflexivity|]. split; [reflexivity|].
  cbn. rewrite J. repeat split.
  - unfold enabledCount. now rewrite length_map.
  - apply Bool.orb_true_r.
Qed.

Lemma click_submits_once_witness :
  exists j request,
    Page.jobId uploaded_page = Some j
    /\ log (handleGenerate 0 uploaded_page) = [axios_post_generate request]
    /\ Request.job_id request = j
    /\ List.length (Request.outputs request) = enabledCount (Page.outputs uploaded_page)
    /\ posting (handleGenerate 0 uploaded_page) = true
    /\ Page.isGenerating (page (handleGenerate 0 uploaded_page)) = true
    /\ Page.generatedAssets (page (handleGenerate 0 uploaded_page)) = []
    /\ generate_button_disabled (page (handleGenerate 0 uploaded_page)) = true.
Proof.
  apply click_submits_once. reflexivity.
Defined.

Lemma handleGenerate_log (now : Z) (p : Page.t) (j : string) :
  Page.jobId p = Some j ->
  captured_jobId (handleGenerate now p) = j
  /\ Forall (names_job j) (log (handleGenerate now p))
  /\ List.length (filter is_generate_post (log (handleGenerate now p)))
     = (if posting (handleGenerate now p) then 1 else 0)%nat
  /\ filter is_assets_fetch (log (handleGenerate now p)) = [].
Proof.
  intros J. unfold handleGenerate, returned_early. rewrite J.
  destruct j as [|a j]; cbn.
  - repeat split. repeat constructor.
  - destruct (List.length (filter Output.enabled (Page.outputs p)) =? 0)%nat; cbn;
      repeat split; repeat constructor.
Qed.

(** X12: in a run, the submission, every status query and every asset fetch name
    the job id that the page had when Generate was clicked. *)
Theorem network_calls_name_the_clicked_job
  (now : Z) (p : Page.t) (j : string) (events : list (Z * Event)) (c : Controller) :
  Page.jobId p = Some j ->
  run (handleGenerate now p) events = Some c ->
  Forall (names_job j) (log c).
Proof.
  intros J H. destruct (handleGenerate_log now p j J) as [Hc [H0 _]].
  destruct (run_log _ _ _ H) as [_ [es [L [F _]]]].
  rewrite L. apply Forall_app. split; [assumption|].
  eapply Forall_impl; [|exact F]. intros e [_ He]. now rewrite <- Hc.
Qed.

Lemma network_calls_name_the_clicked_job_witness :
  exists c, run (handleGenerate 0 uploaded_page) overlapping_polls = Some c
            /\ Forall (names_job "J1") (log c).
Proof.
  eexists. split; [vm_compute; reflexivity|].
  apply (network_calls_name_the_clicked_job 0 uploaded_page "J1" overlapping_polls).
  - reflexivity.
  - vm_compute. reflexivity.
Defined.

Lemma filter_length_none {A : Type} (f : A -> bool) (l : list A) :
  Forall (fun x => f x = false) l -> filter f l = [].
Proof.
  induction 1 as [|x l Hx _ IH]; simpl; [reflexivity|]. now rewrite Hx.
Qed.

(** X13: A run never submits again: whatever happens after the click, the log
    holds the one POST of an accepted click and none for a refused one. *)
Theorem never_posts_again
  (now : Z) (p : Page.t) (events : list (Z * Event)) (c : Controller) :
  run (handleGenerate now p) events = Some c ->
  List.length (filter is_generate_post (log c))
  = (if posting (handleGenerate now p) then 1 else 0)%nat.
Proof.
  intros H. destruct (run_log _ _ _ H) as [_ [es [L [F _]]]].
  rewrite L, filter_app, length_app.
  rewrite (filter_length_none is_generate_post es).
  - simpl. rewrite Nat.add_0_r. unfold handleGenerate.
    destruct (no_jobId (Page.jobId p)); [reflexivity|].
    destruct (List.length (filter Output.enabled (Page.outputs p)) =? 0)%nat; reflexivity.
  - eapply Forall_impl; [|exact F]. intros e [He _]. exact He.
Qed.

Lemma never_posts_again_witness :
  exists c, run (handleGenerate 0 uploaded_page) stuck_job = Some c
            /\ List.length (filter is_generate_post (log c)) = 1%nat.
Proof.
  eexists. split; [vm_compute; reflexivity|].
  apply (never_posts_again 0 uploaded_page stuck_job).
  vm_compute. reflexivity.
Defined.

(** X14: A run fetches the assets once for each poll response with status
    [completed], and never otherwise. *)
Theorem one_fetch_per_completed_answer
  (now : Z) (p : Page.t) (events : list (Z * Event)) (c : Controller) :
  run (handleGenerate now p) events = Some c ->
  List.length (filter is_assets_fetch (log c))
  = List.length (filter answers_completed events).
Proof.
  intros H. destruct (run_log _ _ _ H) as [_ [es [L [_ N]]]].
  rewrite L, filter_app, length_app, N.
  replace (filter is_assets_fetch (log (handleGenerate now p))) with (@nil Effect);
    [reflexivity|].
  unfold handleGenerate.
  destruct (no_jobId (Page.jobId p)); [reflexivity|].
  destruct (List.length (filter Output.enabled (Page.outputs p)) =? 0)%nat; reflexivity.
Qed.

Lemma one_fetch_per_completed_answer_witness :
  exists c, run (handleGenerate 0 uploaded_page) completed_job = Some c
            /\ List.length (filter is_assets_fetch (log c)) = 1%nat.
Proof.
  eexists. split; [vm_compute; reflexivity|].
  apply (one_fetch_per_completed_answer 0 uploaded_page completed_job).
  vm_compute. reflexivity.
Defined.

(** *** Bounded polling *)

Lemma handleGenerate_on_schedule (now : Z) (p : Page.t) : on_schedule (handleGenerate now p).
Proof.
  unfold handleGenerate, on_schedule.
  destruct (no_jobId (Page.jobId p)); cbn.
  - repeat split; try lia; discriminate.
  - destruct (List.length (filter Output.enabled (Page.outputs p)) =? 0)%nat; cbn;
      repeat split; try lia; discriminate.
Qed.

Lemma status_queries_app_none (l es : list Effect) :
  Forall (fun e => is_status_query e = false) es ->
  status_queries (l ++ es) = status_queries l.
Proof.
  intros H. unfold status_queries. rewrite filter_app.
  now rewrite (filter_length_none _ _ H), app_nil_r.
Qed.

(** Unfold the schedule of a handler's result, keeping the arithmetic and
    the count of status queries folded. *)
Ltac schedule_of_result :=
  unfold on_schedule;
  cbn -[status_queries Z.mul Z.add Z.sub Z.of_nat];
  rewrite ?status_queries_app_none by (repeat constructor).

Lemma step_on_schedule (c c' : Controller) (te : Z * Event) :
  on_schedule c -> step c te = Some c' -> on_schedule c'.
Proof.
  intros [Hn [Hp Hd]] H. destruct te as [t e].
  destruct (step_guard _ _ _ _ H) as [_ [_ Gt]]. step_cases H.
  - destruct (posting c) eqn:P; [|discriminate H].
    destruct (Hp eq_refl) as [Q I]. injection H as <-.
    destruct r; schedule_of_result; rewrite ?Q; cbn [List.length].
    + split; [lia|]. split; [discriminate|].
      intros due [= <-]. eexists. split; [reflexivity|]. lia.
    + split; [lia|]. split; [discriminate|]. rewrite I. discriminate.
  - destruct (pollInterval c) as [due|] eqn:I; [|discriminate H].
    destruct (Z.eqb_spec t due) as [->|]; [|discriminate H]. injection H as <-.
    destruct (Hd due eq_refl) as [T [HT E]].
    rewrite HT in Gt. cbn in Gt. apply Z.leb_le in Gt.
    assert (P : posting c = false).
    { destruct (posting c); [|reflexivity]. destruct (Hp eq_refl). discriminate. }
    unfold on_schedule. cbn -[status_queries Z.mul Z.add Z.sub Z.of_nat].
    assert (L : List.length (status_queries (log c ++ [axios_get_jobs (captured_jobId c)]))
                = S (List.length (status_queries (log c)))).
    { unfold status_queries. rewrite filter_app, length_app. cbn. lia. }
    rewrite L, P.
    split; [lia|]. split; [discriminate|].
    intros d [= <-]. exists T. split; [assumption|]. lia.
  - destruct (polls_in_flight c) as [|n]; [discriminate H|]. injection H as <-.
    unfold on_jobs_settled. destruct r as [d|d];
      [destruct (String.eqb (status d) "completed");
       [|destruct (String.eqb (status d) "failed")]|];
      schedule_of_result;
      (split; [exact Hn|]); (split; [try (intros P; destruct (Hp P); now split)|]);
      try discriminate; try exact Hd.
  - destruct (fetches_in_flight c) as [|n]; [discriminate H|]. injection H as <-.
    destruct r; schedule_of_result;
      (split; [exact Hn|]); (split; [try (intros P; destruct (Hp P); now split)|]);
      try discriminate; try exact Hd.
  - destruct (timeoutTimer c) as [due|]; [|discriminate H].
    destruct (t =? due); [|discriminate H]. injection H as <-.
    unfold on_timeout. cbn [captured_isGenerating at_instant].
    destruct (captured_isGenerating c); schedule_of_result;
      (split; [exact Hn|]); (split; [intros P; destruct (Hp P); now split|]);
      discriminate.
Qed.

Lemma run_on_schedule (events : list (Z * Event)) (c c' : Controller) :
  on_schedule c -> run c events = Some c' -> on_schedule c'.
Proof.
  revert c. induction events as [|te events IH]; intros c Hc H; simpl in H.
  - now injection H as <-.
  - destruct (step c te) as [c1|] eqn:S; [|discriminate].
    eapply IH; [|exact H]. eapply step_on_schedule; eassumption.
Qed.

(** X15: A run sends at most 100 status queries, however the remote answers and
    however long the answers take: the interval callback starts every 3000 ms
    and not after the timeout set 300000 ms after the submission was
    accepted. *)
Theorem at_most_100_status_queries
  (now : Z) (p : Page.t) (events : list (Z * Event)) (c : Controller) :
  run (handleGenerate now p) events = Some c ->
  (List.length (status_queries (log c)) <= 100)%nat.
Proof.
  intros H. eapply run_on_schedule; [apply handleGenerate_on_schedule | exact H].
Qed.

Lemma at_most_100_status_queries_witness :
  exists c, run (handleGenerate 0 uploaded_page) stuck_job = Some c
            /\ (List.length (status_queries (log c)) <= 100)%nat.
Proof.
  eexists. split; [vm_compute; reflexivity|].
  apply (at_most_100_status_queries 0 uploaded_page stuck_job).
  vm_compute. reflexivity.
Defined.

(** *** Ends of a run *)

(** X16: a submission that the server refuses (or that fails in transport) ends
    the run: the page stops generating, the error is written to the console
    and notified once, with the detail of the response or a default message,
    no timer is set, and no further event of the run can happen, so no
    status query is ever sent. *)
Theorem rejected_submission_ends_the_run
  (now t : Z) (p : Page.t) (detail : option string) (c : Controller) :
  step (handleGenerate now p) (t, generate_settled (rejected detail)) = Some c ->
  Page.isGenerating (page c) = false
  /\ skipn 1 (log c)
     = [console_error "Generation error:";
        toast_error (or_else detail "Failed to generate assets")]
  /\ nothing_pending c
  /\ forall te, step c te = None.
Proof.
  intros H. unfold step in H.
  destruct ((clock (handleGenerate now p) <=? t)
            && not_overdue t (pollInterval (handleGenerate now p))
            && not_overdue t (timeoutTimer (handleGenerate now p))); [|discriminate H].
  cbn in H. unfold handleGenerate in *.
  destruct (no_jobId (Page.jobId p)); [discriminate H|].
  destruct (List.length (filter Output.enabled (Page.outputs p)) =? 0)%nat;
    [discriminate H|].
  cbn in H. injection H as <-. cbn. repeat split.
  intros [t' e]. unfold step. cbn.
  destruct ((t <=? t') && true && true); [|reflexivity].
  destruct e; reflexivity.
Qed.

Lemma rejected_submission_ends_the_run_witness :
  exists c,
    step (handleGenerate 0 uploaded_page)
      (150, generate_settled (rejected (Some "Job not found"))) = Some c
    /\ Page.isGenerating (page c) = false.
Proof.
  eexists. split; [vm_compute; reflexivity|].
  apply (rejected_submission_ends_the_run 0 150 uploaded_page (Some "Job not found")).
  vm_compute. reflexivity.
Defined.









(** ** The upload session *)

(** X19: A missing file, or a file whose media type does not start with
    [image/], is refused before anything is started: the state is unchanged,
    no reader and no request is started, nothing can happen later, and the
    only effect is the notification shown for a file of the wrong type. *)
Theorem non_image_refused (file : option File.t) (s : Uploader.t) :
  (forall f, file = Some f -> String.prefix "image/" (File.type f) = false) ->
  uploader (handleFileSelect file s) = s
  /\ upload_log (handleFileSelect file s)
     = match file with
       | Some _ => [shown (toast_error "Please upload an image file (JPG, PNG, WEBP)")]
       | None => []
       end
  /\ forall e, upload_step (handleFileSelect file s) e = None.
Proof.
  intros H. unfold handleFileSelect. destruct file as [f|].
  - rewrite (H f eq_refl). cbn. repeat split. now intros [r|r].
  - repeat split. now intros [r|r].
Qed.

Lemma non_image_refused_witness :
  uploader (handleFileSelect (Some (File.mk "notes.txt" "text/plain" 120))
              (Uploader.mk None None None false false))
  = Uploader.mk None None None false false.
Proof.
  apply (non_image_refused (Some (File.mk "notes.txt" "text/plain" 120))).
  intros f [= <-]. reflexivity.
Defined.

(** The runs of an accepted call: the reader loads at most once and the
    request settles at most once, in either order. *)
Lemma upload_run_shapes (f : File.t) (s : Uploader.t) (events : list UploadEvent)
  (u : UploadCall) :
  String.prefix "image/" (File.type f) = true ->
  upload_run (handleFileSelect (Some f) s) events = Some u ->
  events = []
  \/ (exists result, events = [reader_loaded result])
  \/ (exists r, events = [upload_settled r])
  \/ (exists result r, events = [reader_loaded result; upload_settled r])
  \/ (exists result r, events = [upload_settled r; reader_loaded result]).
Proof.
  intros Hp H. unfold handleFileSelect in H. rewrite Hp in H. cbn [negb] in H.
  destruct events as [|e1 [|e2 [|e3 rest]]].
  - now left.
  - destruct e1; [right; left | right; right; left]; eauto.
  - destruct e1 as [x|[j|d]], e2 as [y|[k|d']]; cbn in H; try discriminate H;
      [right; right; right; left | right; right; right; left
       | right; right; right; right | right; right; right; right]; eauto.
  - exfalso.
    destruct e1 as [x|[j|d]], e2 as [y|[k|d']]; cbn in H; try discriminate H;
      destruct e3 as [z|[l|d'']]; cbn in H; discriminate H.
Qed.







(** X23: upload, then generate: after an upload that resolved with a non-empty
    job id, on a page that is not generating and has an enabled output, the
    Generate button is enabled and its click submits for that job id. *)
Theorem generate_uses_the_uploaded_job
  (f : File.t) (s : Uploader.t) (events : list UploadEvent) (u : UploadCall)
  (a : ascii) (j : string) (now : Z) (p : Page.t) :
  String.prefix "image/" (File.type f) = true ->
  upload_run (handleFileSelect (Some f) s) events = Some u ->
  uploaded_job events = Some (Some (String a j)) ->
  Page.isGenerating p = false ->
  enabledCount (Page.outputs p) <> 0%nat ->
  generate_button_disabled (page_of_session (uploader u) p) = false
  /\ exists request,
       log (handleGenerate now (page_of_session (uploader u) p))
       = [axios_post_generate request]
       /\ Request.job_id request = String a j.
Proof.
  intros Hp H Hj Hg Hn.
  assert (J : Uploader.jobId (uploader u) = Some (String a j)).
  { pose proof (upload_run_shapes f s events u Hp H) as Sh.
    unfold handleFileSelect in H. rewrite Hp in H. cbn [negb] in H.
    destruct Sh as [->|[[x ->]|[[r ->]|[[x [r ->]]|[x [r ->]]]]]];
      try destruct r as [k|d]; cbn in Hj; try discriminate Hj;
      cbn in H; injection H as <-; injection Hj as ->; reflexivity. }
  apply Nat.eqb_neq in Hn. rewrite enabledCount_zero in Hn.
  unfold generate_button_disabled, handleGenerate, page_of_session, enabledCount.
  cbn [Page.jobId Page.outputs Page.isGenerating Page.globalSettings].
  rewrite J, Hg, Hn. cbn [no_jobId orb]. split; [reflexivity|].
  eexists. split; reflexivity.
Qed.

Lemma generate_uses_the_uploaded_job_witness :
  generate_button_disabled
    (page_of_session
       (Uploader.mk (Some (File.mk "photo.jpg" "image/jpeg" 2097152)) None (Some "J1")
          false false)
       initial_page) = false.
Proof.
  apply (generate_uses_the_uploaded_job (File.mk "photo.jpg" "image/jpeg" 2097152)
           (Uploader.mk None None None false false)
           [upload_settled (resolved (Some "J1"))]
           (mkUploadCall
              (Uploader.mk (Some (File.mk "photo.jpg" "image/jpeg" 2097152)) None
                 (Some "J1") false false)
              (Some (File.mk "photo.jpg" "image/jpeg" 2097152)) true false
              [readAsDataURL (File.mk "photo.jpg" "image/jpeg" 2097152);
               axios_post_upload (File.mk "photo.jpg" "image/jpeg" 2097152);
               shown (toast_success "Image uploaded successfully")])
           "J" "1" 0 initial_page).
  - reflexivity.
  - reflexivity.
  - reflexivity.
  - reflexivity.
  - discriminate.
Defined.

(** ** The handler's own guards *)

(** X25: [handleGenerate] submits exactly when the page has a job id and an
    enabled output; it does not look at [isGenerating], so only the disabled
    button keeps a second submission from being sent while one is running. *)
Theorem handleGenerate_submits_iff (now : Z) (p : Page.t) :
  posting (handleGenerate now p) = true
  <-> no_jobId (Page.jobId p) = false /\ enabledCount (Page.outputs p) <> 0%nat.
Proof.
  unfold handleGenerate. rewrite <- Nat.eqb_neq, enabledCount_zero.
  destruct (no_jobId (Page.jobId p)); cbn.
  - split; [discriminate | intros [H _]; discriminate H].
  - destruct (List.length (filter Output.enabled (Page.outputs p)) =? 0)%nat; cbn.
    + split; [discriminate | intros [_ H]; discriminate H].
    + split; auto.
Qed.

(** ** Preview cards and saved files *)

(** X26: every preview image has a non-empty [alt] text: the asset's own when it
    has a non-empty one, and otherwise, when the asset has none or an empty
    one, the output type followed by a blank and the word preview. *)
Theorem preview_alt_never_empty (asset : Asset.t) :
  preview_alt asset <> ""
  /\ (forall a s, Asset.alt_text asset = Some (String a s) -> preview_alt asset = String a s)
  /\ (Asset.alt_text asset = None \/ Asset.alt_text asset = Some "" ->
      preview_alt asset = Asset.output_type asset ++ " preview").
Proof.
  unfold preview_alt. split; [|split].
  - destruct (Asset.alt_text asset) as [[|a s]|]; cbn; try discriminate;
      destruct (Asset.output_type asset); discriminate.
  - intros a s ->. reflexivity.
  - intros [->| ->]; reflexivity.
Qed.

Lemma attached_after_app (body : Z) (l l' : list Effect) :
  attached_after body (l ++ l') = attached_after (attached_after body l) l'.
Proof.
  unfold attached_after. apply fold_left_app.
Qed.

Lemma forEach_clicks (assets : list Asset.t) (index body : Z) :
  let effects :=
    List.concat (forEach (fun asset (i : Z) => downloadAsset asset) assets index) in
  attached_after body effects = body
  /\ List.length (filter is_click effects) = List.length assets.
Proof.
  revert index. induction assets as [|asset assets IH]; intros index; cbn zeta.
  - now split.
  - cbn [forEach List.concat]. destruct (IH (index + 1)) as [A C]. cbn zeta in A, C.
    rewrite attached_after_app, filter_app, length_app, C. split.
    + unfold downloadAsset at 1. cbn [attached_after fold_left].
      replace (body + 1 - 1) with body by lia. exact A.
    + reflexivity.
Qed.

(** X27: Download All clicks one anchor per asset and leaves the document body
    as it found it: every anchor that a timer appends it removes. *)
Theorem download_all_leaves_no_anchor (generatedAssets : list Asset.t) (body : Z) :
  let effects := List.concat (map snd (run_timers (fst (handleDownloadAll generatedAssets)))) in
  attached_after body effects = body
  /\ List.length (filter is_click effects) = List.length generatedAssets.
Proof.
  cbn zeta. unfold run_timers, handleDownloadAll. cbn [fst].
  rewrite timer_queue_sorted by (apply forEach_sorted; reflexivity).
  rewrite map_map, map_forEach. cbn [callback].
  apply (forEach_clicks generatedAssets 0 body).
Qed.

(** X24: an upload response that carries no job id (or an empty one) is still
    reported as a success and the file is shown as uploaded, but the page has
    no job id afterwards: the Generate button is disabled and a call of
    [handleGenerate] is refused with the request to upload an image. *)
Theorem upload_without_job_id
  (f : File.t) (s : Uploader.t) (events : list UploadEvent) (u : UploadCall)
  (job_id : option string) (now : Z) (p : Page.t) :
  String.prefix "image/" (File.type f) = true ->
  upload_run (handleFileSelect (Some f) s) events = Some u ->
  uploaded_job events = Some job_id ->
  no_jobId job_id = true ->
  In (shown (toast_success "Image uploaded successfully")) (upload_log u)
  /\ Uploader.uploadedImage (uploader u) = Some f
  /\ generate_button_disabled (page_of_session (uploader u) p) = true
  /\ log (handleGenerate now (page_of_session (uploader u) p))
     = [toast_error "Please upload an image first"].
Proof.
  intros Hp H Hj Hno.
  assert (J : Uploader.jobId (uploader u) = job_id
              /\ Uploader.uploadedImage (uploader u) = Some f
              /\ In (shown (toast_success "Image uploaded successfully")) (upload_log u)).
  { pose proof (upload_run_shapes f s events u Hp H) as Sh.
    unfold handleFileSelect in H. rewrite Hp in H. cbn [negb] in H.
    destruct Sh as [->|[[x ->]|[[r ->]|[[x [r ->]]|[x [r ->]]]]]];
      try destruct r as [k|d]; cbn in Hj; try discriminate Hj;
      cbn in H; injection H as <-; injection Hj as ->; cbn; auto 10. }
  destruct J as [J [I T]]. repeat split; try assumption.
  - unfold generate_button_disabled, page_of_session. cbn [Page.jobId].
    now rewrite J, Hno.
  - unfold handleGenerate, page_of_session. cbn [Page.jobId]. now rewrite J, Hno.
Qed.

Lemma upload_without_job_id_witness :
  exists u,
    upload_run
      (handleFileSelect (Some (File.mk "photo.jpg" "image/jpeg" 2097152))
         (Uploader.mk None None (Some "J0") false false))
      [upload_settled (resolved None)]
    = Some u
    /\ generate_button_disabled (page_of_session (uploader u) initial_page) = true.
Proof.
  eexists. split; [vm_compute; reflexivity|].
  apply (upload_without_job_id (File.mk "photo.jpg" "image/jpeg" 2097152)
           (Uploader.mk None None (Some "J0") false false)
           [upload_settled (resolved None)] _ None 0 initial_page).
  - reflexivity.
  - vm_compute. reflexivity.
  - reflexivity.
  - reflexivity.
Defined.
